(** * Shallow embedding of mitre-attack-mapping.py

    The class [MitreAttackMapping] reads a workbook with the sheets
    "Datasources" and "Detections", joins it with the ATT&CK technique
    list and writes one Navigator layer per topic.  This file embeds the
    sheet readers, [_colorize_techniques] and [generate_layer_files].

    Python values are modelled as follows.
    - A cell value of openpyxl is [None], a string or another scalar
      (numbers, dates, ...): [pyval] below, with numbers standing for
      every non-string scalar (they behave alike in the code: they never
      equal a string and they have no [split] method).
    - A Python [dict] is an association list with dict semantics:
      assigning an existing key replaces its value in place, a new key
      is appended (insertion order is the iteration order).
    - A Python [set] is a duplicate-free list.  Its iteration order is
      not the insertion order: for strings it depends on the run's hash
      seed.  Wherever the code iterates over a set, the model takes the
      enumeration the run produces as an argument.
    - Floats: [(float(a) / float(b)) * 100] is taken as the exact
      rational; for data-source counts that occur in ATT&CK (well below
      400 per technique) the double comparisons with 25, 50, 75 and 99
      agree with the exact ones.
    - [str.lower] is the ASCII lower-casing (tactic and topic names are
      ASCII). *)

From Stdlib Require Import List String Ascii Bool ZArith QArith Permutation Lia.
Import ListNotations.
Open Scope string_scope.

(** ** Python values *)

Inductive cell : Type :=
| CStr (s : string)
| CNum (z : Z).

(** [None] is an empty cell. *)
Definition pyval : Type := option cell.

Definition cell_eqb (a b : cell) : bool :=
  match a, b with
  | CStr x, CStr y => String.eqb x y
  | CNum x, CNum y => Z.eqb x y
  | _, _ => false
  end.

(** Python [==] on cell values. *)
Definition pyval_eqb (a b : pyval) : bool :=
  match a, b with
  | None, None => true
  | Some x, Some y => cell_eqb x y
  | _, _ => false
  end.

(** ** Python dicts and sets *)

Section PyDict.
Context {K V : Type} (keqb : K -> K -> bool).

(** [d[k]] / [d.get(k)] *)
Fixpoint dict_get (k : K) (d : list (K * V)) : option V :=
  match d with
  | [] => None
  | (k', v) :: d' => if keqb k k' then Some v else dict_get k d'
  end.

(** [d[k] = v]: an existing key keeps its position. *)
Fixpoint dict_set (k : K) (v : V) (d : list (K * V)) : list (K * V) :=
  match d with
  | [] => [(k, v)]
  | (k', v') :: d' =>
      if keqb k k' then (k', v) :: d' else (k', v') :: dict_set k v d'
  end.

(** [x in s] for a set [s] *)
Definition set_mem (x : K) (s : list K) : bool := existsb (keqb x) s.

(** [s.add(x)] *)
Definition set_add (x : K) (s : list K) : list K :=
  if set_mem x s then s else s ++ [x].
End PyDict.

(** [range(a, b)] *)
Definition range (a b : nat) : list nat := seq a (b - a).

(** ** Techniques (attackcti records) *)

Record technique : Type := {
  technique_id : string;
  tactic : list string;
  data_sources : option (list string)   (* [None] when absent *)
}.

(** [_get_all_mitre_info]: the dict keyed by technique id. *)
Definition techniques_dict_of (techniques_list : list technique)
  : list (string * technique) :=
  fold_left (fun d t => dict_set String.eqb (technique_id t) t d)
    techniques_list [].

(** Truthiness of [t['data_sources']]. *)
Definition ds_truthy (ods : option (list string)) : bool :=
  match ods with
  | Some (_ :: _) => true
  | _ => false
  end.

(** [x in t['data_sources']] for a cell value [x]: only a string can
    equal a string. *)
Definition pyval_in_strs (x : pyval) (l : list string) : bool :=
  match x with
  | Some (CStr s) => set_mem String.eqb s l
  | _ => false
  end.

(** [ds in my_ds] for a data-source name [ds] of the taxonomy. *)
Definition str_in_pyset (s : string) (my_ds : list pyval) : bool :=
  set_mem pyval_eqb (Some (CStr s)) my_ds.

(** ** [_colorize_techniques] *)

Module Colors.
(** Datasource colors *)
Definition c25 := "#f9f1c6".
Definition c50 := "#ffe766".
Definition c75 := "#ffd466".
Definition c99 := "#f6b922".
Definition c100 := "#c39217".
(** Detection colors *)
Definition dc25 := "#bbfcd5".
Definition dc50 := "#96f2bb".
Definition dc75 := "#63eb99".
Definition dc99 := "#33de77".
Definition dc100 := "#06c452".
(** The marking color of the [else] branch. *)
Definition marking := "#dc1a33".
End Colors.
Import Colors.

(** [ds_count]: data-sources of the technique found in [my_ds], counted
    over the list [t['data_sources']]. *)
Fixpoint ds_count (my_ds : list pyval) (ds : list string) : nat :=
  match ds with
  | [] => 0
  | d :: ds' => (if str_in_pyset d my_ds then 1 else 0) + ds_count my_ds ds'
  end.

(** [result = (float(ds_count) / float(total_ds_count)) * 100] *)
Definition coverage (my_ds : list pyval) (ds : list string) : Q :=
  (inject_Z (Z.of_nat (ds_count my_ds ds)) / inject_Z (Z.of_nat (List.length ds))) * 100.

(** [x if result <= 25 else y if result <= 50 else ...] *)
Definition pick (result : Q) (k25 k50 k75 k99 k100 : string) : string :=
  if Qle_bool result 25 then k25
  else if Qle_bool result 50 then k50
  else if Qle_bool result 75 then k75
  else if Qle_bool result 99 then k99
  else k100.

(** Body of [if t['data_sources']:] for one technique. *)
Definition technique_color (my_ds : list pyval) (detected_techniques : list string)
    (t_id : string) (ds : list string) : string :=
  let total_ds_count := List.length ds in
  if Nat.ltb 0 total_ds_count then
    let result := coverage my_ds ds in
    if set_mem String.eqb t_id detected_techniques
    then pick result dc25 dc50 dc75 dc99 dc100
    else pick result c25 c50 c75 c99 c100
  else marking.

(** First loop: [for t_id, t in self.techniques_dict.items(): ...] *)
Fixpoint color_loop (my_ds : list pyval) (detected_techniques : list string)
    (items : list (string * technique)) (technique_colors : list (string * string))
  : list (string * string) :=
  match items with
  | [] => technique_colors
  | (t_id, t) :: rest =>
      let technique_colors' :=
        match data_sources t with
        | Some ds =>
            if ds_truthy (Some ds)
            then dict_set String.eqb t_id
                   (technique_color my_ds detected_techniques t_id ds) technique_colors
            else technique_colors
        | None => technique_colors
        end in
      color_loop my_ds detected_techniques rest technique_colors'
  end.

Definition technique_colors_of (techniques_dict : list (string * technique))
    (my_ds : list pyval) (detected_techniques : list string) : list (string * string) :=
  color_loop my_ds detected_techniques techniques_dict [].

(** [str.lower] on ASCII *)
Definition lower_char (c : ascii) : ascii :=
  let n := nat_of_ascii c in
  if (Nat.leb 65 n && Nat.leb n 90)%bool then ascii_of_nat (n + 32) else c.

Fixpoint lower (s : string) : string :=
  match s with
  | EmptyString => EmptyString
  | String c s' => String (lower_char c) (lower s')
  end.

(** [s.replace(' ', '-')] *)
Fixpoint replace_space (s : string) : string :=
  match s with
  | EmptyString => EmptyString
  | String c s' =>
      String (if Ascii.eqb c " "%char then "-"%char else c) (replace_space s')
  end.

(** The dict [d] of one emitted technique entry. *)
Record entry : Type := {
  techniqueID : string;
  color : string;
  comment : string;
  enabled : bool;
  entry_tactic : string
}.

Definition mk_entry (t_id c tac : string) : entry :=
  {| techniqueID := t_id; color := c; comment := ""; enabled := true;
     entry_tactic := replace_space (lower tac) |}.

(** [for tactic in t['tactic']: ...]; [technique_colors[t_id]] raises
    [KeyError] ([None]) when the key is missing. *)
Fixpoint emit_tactics (technique_colors : list (string * string)) (t_id : string)
    (tactics : list string) : option (list entry) :=
  match tactics with
  | [] => Some []
  | tac :: rest =>
      match dict_get String.eqb t_id technique_colors with
      | None => None
      | Some c =>
          match emit_tactics technique_colors t_id rest with
          | None => None
          | Some es => Some (mk_entry t_id c tac :: es)
          end
      end
  end.

(** The admission test of the inner loop. *)
Definition admits (i_ds : pyval) (t : technique) : bool :=
  match data_sources t with
  | Some ds => ds_truthy (Some ds) && pyval_in_strs i_ds ds
  | None => false
  end.

(** Inner loop over [self.techniques_dict.items()] for one [i_ds];
    state: [my_techniques_set] and [my_techniques]. *)
Fixpoint scan_techniques (technique_colors : list (string * string)) (i_ds : pyval)
    (items : list (string * technique)) (seen : list string) (out : list entry)
  : option (list string * list entry) :=
  match items with
  | [] => Some (seen, out)
  | (t_id, t) :: rest =>
      if admits i_ds t && negb (set_mem String.eqb t_id seen) then
        let seen' := set_add String.eqb t_id seen in
        match emit_tactics technique_colors t_id (tactic t) with
        | None => None
        | Some es => scan_techniques technique_colors i_ds rest seen' (out ++ es)
        end
      else scan_techniques technique_colors i_ds rest seen out
  end.

(** Outer loop [for i_ds in my_ds]; [my_ds_order] is the run's
    enumeration of the set [my_ds]. *)
Fixpoint ds_loop (technique_colors : list (string * string))
    (techniques_dict : list (string * technique)) (my_ds_order : list pyval)
    (seen : list string) (out : list entry) : option (list entry) :=
  match my_ds_order with
  | [] => Some out
  | i_ds :: rest =>
      match scan_techniques technique_colors i_ds techniques_dict seen out with
      | None => None
      | Some (seen', out') => ds_loop technique_colors techniques_dict rest seen' out'
      end
  end.

(** [_colorize_techniques(my_ds, detected_techniques)]; [my_ds] is given
    in the order the run iterates the set (membership does not depend on
    it).  [None] is an uncaught [KeyError]. *)
Definition colorize_techniques (techniques_dict : list (string * technique))
    (my_ds : list pyval) (detected_techniques : list string) : option (list entry) :=
  let technique_colors := technique_colors_of techniques_dict my_ds detected_techniques in
  ds_loop technique_colors techniques_dict my_ds [] [].

(** ** Sheet readers *)

(** An openpyxl worksheet: [ws.max_row], [ws.max_column] and
    [ws.cell(row, col).value]. *)
Record worksheet : Type := {
  max_row : nat;
  max_column : nat;
  cell_at : nat -> nat -> pyval   (* row, column *)
}.

Record workbook : Type := {
  sheetnames : list string;
  sheet : string -> worksheet     (* [wb[name]] for a name in [sheetnames] *)
}.

(** Rows of column [col] of the "Datasources" sheet:
    [if value == 'x': self.my_datasources[layer_name].add(datasource)] *)
Definition column_datasources (ws : worksheet) (col : nat) : list pyval :=
  fold_left
    (fun s row =>
       if pyval_eqb (cell_at ws row col) (Some (CStr "x"))
       then set_add pyval_eqb (cell_at ws row 1) s else s)
    (range 2 (max_row ws + 1)) [].

(** The loop over the columns of the "Datasources" sheet. *)
Definition datasources_of_sheet (ws : worksheet) : list (pyval * list pyval) :=
  fold_left
    (fun d col => dict_set pyval_eqb (cell_at ws 1 col) (column_datasources ws col) d)
    (range 2 (max_column ws + 1)) [].

(** [value.split(',')] *)
Fixpoint split_comma (s : string) : list string :=
  match s with
  | EmptyString => [EmptyString]
  | String c s' =>
      let parts := split_comma s' in
      if Ascii.eqb c ","%char then EmptyString :: parts
      else match parts with
           | p :: ps => String c p :: ps
           | [] => [String c EmptyString]
           end
  end.

(** One cell of the "Detections" sheet added to the set; a non-string
    value has no [split] and raises [AttributeError] ([None]). *)
Definition add_detections (value : pyval) (s : list string) : option (list string) :=
  match value with
  | None => Some s
  | Some (CStr v) =>
      Some (fold_left (fun s t => set_add String.eqb t s) (split_comma v) s)
  | Some (CNum _) => None
  end.

Definition column_detections (ws : worksheet) (col : nat) : option (list string) :=
  fold_left
    (fun acc row =>
       match acc with
       | None => None
       | Some s => add_detections (cell_at ws row col) s
       end)
    (range 2 (max_row ws + 1)) (Some []).

Definition detections_of_sheet (ws : worksheet) : option (list (pyval * list string)) :=
  fold_left
    (fun acc col =>
       match acc with
       | None => None
       | Some d =>
           match column_detections ws col with
           | None => None
           | Some s => Some (dict_set pyval_eqb (cell_at ws 1 col) s d)
           end
       end)
    (range 2 (max_column ws + 1)) (Some []).

(** ** Effects: printing, writing files, [sys.exit] and exceptions *)

Inductive outcome (A : Type) : Type :=
| Done (a : A)
| Exit (code : Z)
| Raise (exn : string).
Arguments Done {A} a.
Arguments Exit {A} code.
Arguments Raise {A} exn.

(** A written layer file: its name, the layer's [name] and its
    [techniques] list (the rest of the template is constant). *)
Record layer_file : Type := {
  file_name : string;
  layer_name : string;
  layer_techniques : list entry
}.

Record world : Type := {
  stdout : list string;
  files : list layer_file
}.

Definition M (A : Type) : Type := world -> outcome A * world.

Definition ret {A} (a : A) : M A := fun w => (Done a, w).
Definition bind {A B} (m : M A) (k : A -> M B) : M B :=
  fun w => match m w with
           | (Done a, w') => k a w'
           | (Exit c, w') => (Exit c, w')
           | (Raise e, w') => (Raise e, w')
           end.
Notation "x <- m ;; k" := (bind m (fun x => k)) (at level 61, m at next level, right associativity).
Notation "m ;;; k" := (bind m (fun _ => k)) (at level 61, right associativity).

Definition print (s : string) : M unit :=
  fun w => (Done tt, {| stdout := stdout w ++ [s]; files := files w |}).
Definition sys_exit {A} (code : Z) : M A := fun w => (Exit code, w).
Definition raise {A} (e : string) : M A := fun w => (Raise e, w).
Definition write_file (f : layer_file) : M unit :=
  fun w => (Done tt, {| stdout := stdout w; files := files w ++ [f] |}).

Fixpoint for_each {A} (l : list A) (body : A -> M unit) : M unit :=
  match l with
  | [] => ret tt
  | x :: l' => body x ;;; for_each l' body
  end.

Definition dquote : string := String (ascii_of_nat 34) EmptyString.

(** ['No worksheet with name "%s"' % worksheet_name] *)
Definition no_worksheet_msg (worksheet_name : string) : string :=
  "No worksheet with name " ++ dquote ++ worksheet_name ++ dquote.

Definition load_my_datasources_from_file (wb : workbook) : M (list (pyval * list pyval)) :=
  let worksheet_name := "Datasources" in
  if negb (set_mem String.eqb worksheet_name (sheetnames wb))
  then print (no_worksheet_msg worksheet_name) ;;; sys_exit 0
  else ret (datasources_of_sheet (sheet wb worksheet_name)).

Definition load_my_detected_techniques (wb : workbook) : M (list (pyval * list string)) :=
  let worksheet_name := "Detections" in
  if negb (set_mem String.eqb worksheet_name (sheetnames wb))
  then print (no_worksheet_msg worksheet_name) ;;; sys_exit 0
  else match detections_of_sheet (sheet wb worksheet_name) with
       | Some d => ret d
       | None => raise "AttributeError"
       end.

(** [_normalize_name_to_filename(name)]; [name.lower()] raises on a
    non-string header. *)
Definition normalize_name_to_filename (name : pyval) : M string :=
  match name with
  | Some (CStr s) => ret (replace_space (lower s))
  | _ => raise "AttributeError"
  end.

(** [generate_layer_files]; [iter_set] is the run's enumeration of a
    set of cell values. *)
Definition generate_layer_files (iter_set : list pyval -> list pyval)
    (techniques_dict : list (string * technique)) (wb : workbook) : M unit :=
  my_datasources <- load_my_datasources_from_file wb ;;
  detected_techniques <- load_my_detected_techniques wb ;;
  for_each my_datasources (fun '(name, my_ds) =>
    det <- match dict_get pyval_eqb name detected_techniques with
           | Some s => ret s
           | None => raise "KeyError"
           end ;;
    my_techniques <- match colorize_techniques techniques_dict (iter_set my_ds) det with
                     | Some es => ret es
                     | None => raise "KeyError"
                     end ;;
    fname <- normalize_name_to_filename name ;;
    write_file {| file_name := fname ++ ".json";
                  layer_name := match name with Some (CStr s) => s | _ => "" end;
                  layer_techniques := my_techniques |}).

Definition empty_world : world := {| stdout := []; files := [] |}.

(** ** [_get_all_mitre_info] and the script *)

(** [self.datasources]: every name of a non-empty [t['data_sources']]
    of a technique of [self.techniques_dict], added to a set. *)
Definition all_datasources (techniques_dict : list (string * technique)) : list string :=
  fold_left
    (fun s '(_, t) =>
       if ds_truthy (data_sources t)
       then fold_left (fun s d => set_add String.eqb d s)
              (match data_sources t with Some ds => ds | None => [] end) s
       else s)
    techniques_dict [].

(** [_get_all_mitre_info()]: the pair [(self.techniques_dict,
    self.datasources)] built from [get_all_enterprise_techniques()]. *)
Definition get_all_mitre_info (techniques_list : list technique)
  : list (string * technique) * list string :=
  let techniques_dict := techniques_dict_of techniques_list in
  (techniques_dict, all_datasources techniques_dict).




(** * Specification-side helpers and sample data *)

Section SampleData.
Open Scope list_scope.
Open Scope nat_scope.

Definition no_detection_palette : list string := [c25; c50; c75; c99; c100].
Definition detection_palette : list string := [dc25; dc50; dc75; dc99; dc100].

(** The palette the code picks from for a technique id. *)
Definition palette_for (t_id : string) (detected_techniques : list string) : list string :=
if set_mem String.eqb t_id detected_techniques then detection_palette else no_detection_palette.

(** Entries of one admitted technique, as [emit_tactics] produces them
  once its colour is known. *)
Definition block (technique_colors : list (string * string)) (item : string * technique)
: list entry :=
let '(t_id, t) := item in
match dict_get String.eqb t_id technique_colors with
| Some c => map (mk_entry t_id c) (tactic t)
| None => []
end.

Definition fresh_admitted (i_ds : pyval) (seen : list string) (item : string * technique) : bool :=
admits i_ds (snd item) && negb (set_mem String.eqb (fst item) seen).

(** A technique is emitted when it was not emitted before and one of the
  data-sources still to be visited admits it. *)
Definition admitted_by (L : list pyval) (seen : list string) (item : string * technique) : bool :=
negb (set_mem String.eqb (fst item) seen) && existsb (fun i => admits i (snd item)) L.

(** Number of entries of a list for one (technique, tactic) pair. *)
Definition count_pair (t_id tac : string) (out : list entry) : nat :=
List.length (filter (fun e => String.eqb (techniqueID e) t_id && String.eqb (entry_tactic e) tac) out).

(** Number of tactics of a technique whose normalized name is [tac]. *)
Definition count_tactic (tac : string) (tactics : list string) : nat :=
List.length (filter (fun x => String.eqb (replace_space (lower x)) tac) tactics).

(** Sample ATT&CK v6 records. *)
Definition t1070 : technique :=
{| technique_id := "T1070"; tactic := ["Defense Evasion"];
   data_sources := Some ["File monitoring"; "Process monitoring";
                         "Process command-line parameters"; "API monitoring"] |}.

Definition t1205 : technique :=
{| technique_id := "T1205"; tactic := ["Defense Evasion"; "Persistence"; "Command And Control"];
   data_sources := None |}.

Definition t1059 : technique :=
{| technique_id := "T1059"; tactic := ["Execution"];
   data_sources := Some ["Process monitoring"; "Process command-line parameters"] |}.

Definition sample_techniques : list technique := [t1070; t1205; t1059].

Definition sample_my_ds : list pyval :=
[Some (CStr "Process monitoring"); Some (CStr "File monitoring")].

(** A technique listing the same tactic twice. *)
Definition t1059_twice : technique :=
{| technique_id := "T1059"; tactic := ["Execution"; "Execution"];
   data_sources := Some ["Process monitoring"] |}.

(** A worksheet with no topic column. *)
Definition ws_empty : worksheet := {| max_row := 1; max_column := 1; cell_at := fun _ _ => None |}.

(** A workbook with one topic, [SOC], holding two data-sources. *)
Definition t1070_fm : technique :=
{| technique_id := "T1070"; tactic := ["Defense Evasion"]; data_sources := Some ["File monitoring"] |}.
Definition t1059_pm : technique :=
{| technique_id := "T1059"; tactic := ["Execution"]; data_sources := Some ["Process monitoring"] |}.

Definition ws_datasources : worksheet :=
{| max_row := 3; max_column := 2;
   cell_at := fun row col =>
     match row, col with
     | 1, 2 => Some (CStr "SOC")
     | 2, 1 => Some (CStr "File monitoring")
     | 3, 1 => Some (CStr "Process monitoring")
     | 2, 2 | 3, 2 => Some (CStr "x")
     | _, _ => None
     end |}.

Definition ws_detections : worksheet :=
{| max_row := 1; max_column := 2;
   cell_at := fun row col => match row, col with 1, 2 => Some (CStr "SOC") | _, _ => None end |}.

Definition wb_soc : workbook :=
{| sheetnames := ["Datasources"; "Detections"];
   sheet := fun n => if String.eqb n "Datasources" then ws_datasources else ws_detections |}.

(** A [Detections] sheet with a number in a technique cell. *)
Definition ws_detections_number : worksheet :=
{| max_row := 2; max_column := 2;
   cell_at := fun row col =>
     match row, col with
     | 1, 2 => Some (CStr "SOC")
     | 2, 2 => Some (CNum 1059%Z)
     | _, _ => None
     end |}.

(** The last record of a list carrying a given id. *)
Definition last_with_id (k : string) (tl : list technique) : option technique :=
  fold_left (fun acc t => if String.eqb (technique_id t) k then Some t else acc) tl None.

(** A cell value that names a data-source of the taxonomy. *)
Definition in_taxonomy (datasources : list string) (x : pyval) : bool :=
  match x with
  | Some (CStr s) => set_mem String.eqb s datasources
  | _ => false
  end.

(** The techniques the entry loop emits, in emission order: for each
    visited data-source, the not yet emitted techniques it admits, in
    dict order. *)
Fixpoint admitted_items (techniques_dict : list (string * technique)) (L : list pyval)
    (seen : list string) : list (string * technique) :=
  match L with
  | [] => []
  | i :: L' =>
      let new := filter (fresh_admitted i seen) techniques_dict in
      new ++ admitted_items techniques_dict L' (seen ++ map fst new)
  end.






End SampleData.

(** * Facts about the embedding *)

Open Scope list_scope.

Lemma cell_eqb_eq a b : cell_eqb a b = true <-> a = b.
Proof.
  destruct a, b; simpl; split; intro H; try discriminate;
    try (apply String.eqb_eq in H; subst; reflexivity);
    try (apply Z.eqb_eq in H; subst; reflexivity);
    inversion H; subst; try apply String.eqb_refl; apply Z.eqb_refl.
Qed.

Lemma pyval_eqb_eq a b : pyval_eqb a b = true <-> a = b.
Proof.
  destruct a as [x|], b as [y|]; simpl; try (split; congruence).
  rewrite cell_eqb_eq. split; congruence.
Qed.

Section PyDictFacts.
Context {K V : Type} (keqb : K -> K -> bool).
Hypothesis keqb_spec : forall a b, keqb a b = true <-> a = b.

Lemma keqb_refl a : keqb a a = true.
Proof. apply keqb_spec; reflexivity. Qed.

Lemma keqb_false a b : a <> b -> keqb a b = false.
Proof.
  intro H. destruct (keqb a b) eqn:E; [|reflexivity].
  apply keqb_spec in E. contradiction.
Qed.

Lemma set_mem_In (x : K) (s : list K) : set_mem keqb x s = true <-> In x s.
Proof.
  unfold set_mem. rewrite existsb_exists. split.
  - intros [y [Hy Hxy]]. apply keqb_spec in Hxy. subst. exact Hy.
  - intro H. exists x. split; [exact H | apply keqb_refl].
Qed.

Lemma set_mem_false (x : K) (s : list K) : set_mem keqb x s = false <-> ~ In x s.
Proof.
  rewrite <- set_mem_In. destruct (set_mem keqb x s); split; congruence.
Qed.

Lemma set_add_In (x y : K) (s : list K) :
  In y (set_add keqb x s) <-> In y s \/ y = x.
Proof.
  unfold set_add. destruct (set_mem keqb x s) eqn:E.
  - apply set_mem_In in E. split; [tauto|]. intros [H|H]; subst; assumption.
  - rewrite in_app_iff. simpl. intuition (subst; auto).
Qed.

Lemma dict_get_set (k k' : K) (v : V) (d : list (K * V)) :
  dict_get keqb k (dict_set keqb k' v d)
  = if keqb k k' then Some v else dict_get keqb k d.
Proof.
  induction d as [|[k0 v0] d IH]; simpl.
  - reflexivity.
  - destruct (keqb k' k0) eqn:E0; simpl.
    + apply keqb_spec in E0. subst k0.
      destruct (keqb k k'); reflexivity.
    + rewrite IH. destruct (keqb k k0) eqn:E1, (keqb k k') eqn:E2; try reflexivity.
      apply keqb_spec in E1, E2. subst. rewrite keqb_refl in E0. discriminate.
Qed.

Lemma dict_set_keys (k : K) (v : V) (d : list (K * V)) :
  map fst (dict_set keqb k v d)
  = if set_mem keqb k (map fst d) then map fst d else (map fst d ++ [k])%list.
Proof.
  induction d as [|[k0 v0] d IH]; simpl; [reflexivity|].
  unfold set_mem in *. simpl.
  destruct (keqb k k0) eqn:E; simpl; [reflexivity|].
  rewrite IH. destruct (existsb (keqb k) (map fst d)); reflexivity.
Qed.

Lemma dict_set_nodup (k : K) (v : V) (d : list (K * V)) :
  NoDup (map fst d) -> NoDup (map fst (dict_set keqb k v d)).
Proof.
  intro H. rewrite dict_set_keys. destruct (set_mem keqb k (map fst d)) eqn:E.
  - exact H.
  - apply set_mem_false in E. apply NoDup_app; auto using NoDup_cons, NoDup_nil.
    intros x Hx Hx'. simpl in Hx'. destruct Hx' as [Hx'|[]]. subst. contradiction.
Qed.

Lemma dict_get_some_In (k : K) (v : V) (d : list (K * V)) :
  dict_get keqb k d = Some v -> In (k, v) d.
Proof.
  induction d as [|[k0 v0] d IH]; simpl; [discriminate|].
  destruct (keqb k k0) eqn:E.
  - apply keqb_spec in E. subst. intro H. inversion H. left; reflexivity.
  - intro H. right. apply IH, H.
Qed.

Lemma dict_get_none (k : K) (d : list (K * V)) :
  ~ In k (map fst d) -> dict_get keqb k d = None.
Proof.
  induction d as [|[k0 v0] d IH]; simpl; [reflexivity|].
  intro H. rewrite keqb_false by (intro; subst; tauto). apply IH. tauto.
Qed.

Lemma nodup_keys_unique (d : list (K * V)) k v v' :
  NoDup (map fst d) -> In (k, v) d -> In (k, v') d -> v = v'.
Proof.
  induction d as [|[k0 v0] d IH]; simpl; [contradiction|].
  intros Hnd H1 H2. inversion Hnd as [|? ? Hnin Hnd']; subst.
  destruct H1 as [H1|H1], H2 as [H2|H2].
  - congruence.
  - inversion H1; subst. exfalso. apply Hnin. apply (in_map fst) in H2. exact H2.
  - inversion H2; subst. exfalso. apply Hnin. apply (in_map fst) in H1. exact H1.
  - apply IH; assumption.
Qed.

Lemma dict_get_In (k : K) (v : V) (d : list (K * V)) :
  NoDup (map fst d) -> (dict_get keqb k d = Some v <-> In (k, v) d).
Proof.
  intro Hnd. split; [apply dict_get_some_In|].
  intro Hin. destruct (dict_get keqb k d) as [v'|] eqn:E.
  - apply dict_get_some_In in E. f_equal. eapply nodup_keys_unique; eassumption.
  - exfalso. induction d as [|[k0 v0] d IH]; simpl in *; [contradiction|].
    inversion Hnd; subst. destruct (keqb k k0) eqn:Ek; [discriminate|].
    destruct Hin as [Hin|Hin].
    + inversion Hin; subst. rewrite keqb_refl in Ek. discriminate.
    + apply IH; assumption.
Qed.

Lemma key_in_filter (p : K * V -> bool) (d : list (K * V)) k v :
  NoDup (map fst d) -> In (k, v) d ->
  (In k (map fst (filter p d)) <-> p (k, v) = true).
Proof.
  intros Hnd Hin. split.
  - intro H. apply in_map_iff in H. destruct H as [[k' v'] [Hk Hin']]. simpl in Hk. subst k'.
    apply filter_In in Hin'. destruct Hin' as [Hin' Hp].
    rewrite (nodup_keys_unique d k v v' Hnd Hin Hin'). exact Hp.
  - intro Hp. apply (in_map fst (filter p d) (k, v)). apply filter_In. auto.
Qed.
End PyDictFacts.

Lemma pyval_in_strs_In x l : pyval_in_strs x l = true <-> exists s, x = Some (CStr s) /\ In s l.
Proof.
  destruct x as [[s|z]|]; simpl.
  - rewrite (set_mem_In String.eqb String.eqb_eq). split.
    + intro H. exists s. auto.
    + intros [s' [Hs Hin]]. inversion Hs; subst. exact Hin.
  - split; [discriminate|]. intros [s [Hs _]]. discriminate.
  - split; [discriminate|]. intros [s [Hs _]]. discriminate.
Qed.

(** The technique dict has one entry per id, stored under its own id. *)
Lemma techniques_dict_wf (tl : list technique) :
  NoDup (map fst (techniques_dict_of tl)) /\
  (forall k t, In (k, t) (techniques_dict_of tl) -> technique_id t = k).
Proof.
  unfold techniques_dict_of.
  assert (Hgen : forall d, NoDup (map fst d) -> (forall k t, In (k, t) d -> technique_id t = k) ->
            NoDup (map fst (fold_left (fun d t => dict_set String.eqb (technique_id t) t d) tl d)) /\
            (forall k t, In (k, t) (fold_left (fun d t => dict_set String.eqb (technique_id t) t d) tl d) ->
                         technique_id t = k)).
  { induction tl as [|t0 tl IH]; simpl; intros d Hnd Hid; [split; assumption|].
    apply IH.
    - apply dict_set_nodup; [apply String.eqb_eq | exact Hnd].
    - clear IH. induction d as [|[k0 v0] d IHd]; simpl.
      + intros k t [H|[]]. inversion H; subst. reflexivity.
      + intros k t Hin. destruct (String.eqb (technique_id t0) k0) eqn:E; simpl in Hin.
        * apply String.eqb_eq in E. destruct Hin as [H|H].
          { inversion H; subst. reflexivity. }
          { apply Hid. right. exact H. }
        * simpl in Hnd. inversion Hnd; subst. destruct Hin as [H|H].
          { apply Hid. left. exact H. }
          { eapply IHd; [assumption | intros k1 t1 Hk1; apply Hid; right; exact Hk1 | exact H]. } }
  apply Hgen; [constructor | intros k t []].
Qed.

(** ** The colour mapping [technique_colors] *)

Lemma color_loop_get my_ds det items acc k :
  NoDup (map fst items) ->
  dict_get String.eqb k (color_loop my_ds det items acc)
  = match dict_get String.eqb k items with
    | Some t =>
        match data_sources t with
        | Some ds => if ds_truthy (Some ds)
                     then Some (technique_color my_ds det k ds)
                     else dict_get String.eqb k acc
        | None => dict_get String.eqb k acc
        end
    | None => dict_get String.eqb k acc
    end.
Proof.
  revert acc. induction items as [|[t_id t] rest IH]; intros acc Hnd; simpl; [reflexivity|].
  inversion Hnd as [|? ? Hnin Hnd']; subst.
  rewrite IH by exact Hnd'.
  destruct (String.eqb k t_id) eqn:E.
  - apply String.eqb_eq in E. subst k.
    rewrite (dict_get_none String.eqb String.eqb_eq) by exact Hnin.
    destruct (data_sources t) as [[|d ds]|]; simpl; try reflexivity.
    rewrite (dict_get_set String.eqb String.eqb_eq), String.eqb_refl. reflexivity.
  - destruct (data_sources t) as [[|d ds]|]; simpl; try reflexivity.
    rewrite (dict_get_set String.eqb String.eqb_eq), E. reflexivity.
Qed.

Lemma techniques_colors_get tl my_ds det k :
  dict_get String.eqb k (technique_colors_of (techniques_dict_of tl) my_ds det)
  = match dict_get String.eqb k (techniques_dict_of tl) with
    | Some t =>
        match data_sources t with
        | Some ds => if ds_truthy (Some ds) then Some (technique_color my_ds det k ds) else None
        | None => None
        end
    | None => None
    end.
Proof.
  unfold technique_colors_of. rewrite color_loop_get by apply techniques_dict_wf.
  reflexivity.
Qed.

Lemma Qle_bool_false x y : y < x -> Qle_bool x y = false.
Proof.
  intro H. destruct (Qle_bool x y) eqn:E; [|reflexivity].
  apply Qle_bool_iff in E. exfalso. apply (Qlt_not_le y x); assumption.
Qed.

Lemma pick_tiers (r : Q) (pal : list string) :
  let c := pick r (nth 0 pal "") (nth 1 pal "") (nth 2 pal "") (nth 3 pal "") (nth 4 pal "") in
  (r <= 25 -> c = nth 0 pal "") /\
  (25 < r -> r <= 50 -> c = nth 1 pal "") /\
  (50 < r -> r <= 75 -> c = nth 2 pal "") /\
  (75 < r -> r <= 99 -> c = nth 3 pal "") /\
  (99 < r -> c = nth 4 pal "").
Proof.
  unfold pick.
  assert (Hgt : forall a b, a < b -> b < r -> Qle_bool r a = false)
    by (intros a b Hab Hbr; apply Qle_bool_false; apply Qlt_trans with b; assumption).
  assert (Hle : forall a, r <= a -> Qle_bool r a = true) by (intros a H; apply Qle_bool_iff, H).
  repeat split; intros.
  - rewrite Hle by assumption. reflexivity.
  - rewrite Qle_bool_false by assumption. rewrite Hle by assumption. reflexivity.
  - rewrite (Hgt 25 50), Qle_bool_false, Hle by (reflexivity || assumption). reflexivity.
  - rewrite (Hgt 25 75), (Hgt 50 75), Qle_bool_false, Hle by (reflexivity || assumption).
    reflexivity.
  - rewrite (Hgt 25 99), (Hgt 50 99), (Hgt 75 99), Qle_bool_false by (reflexivity || assumption).
    reflexivity.
Qed.

Lemma pick_index (r : Q) (pal : list string) :
  exists k, (k < 5)%nat /\
    forall pal', pick r (nth 0 pal' "") (nth 1 pal' "") (nth 2 pal' "") (nth 3 pal' "") (nth 4 pal' "")
                 = nth k pal' "".
Proof.
  unfold pick.
  destruct (Qle_bool r 25); [exists 0%nat; split; [lia|reflexivity]|].
  destruct (Qle_bool r 50); [exists 1%nat; split; [lia|reflexivity]|].
  destruct (Qle_bool r 75); [exists 2%nat; split; [lia|reflexivity]|].
  destruct (Qle_bool r 99); [exists 3%nat; split; [lia|reflexivity]|].
  exists 4%nat; split; [lia|reflexivity].
Qed.

Lemma technique_color_palette my_ds det t_id ds :
  ds <> [] ->
  technique_color my_ds det t_id ds
  = pick (coverage my_ds ds)
      (nth 0 (palette_for t_id det) "") (nth 1 (palette_for t_id det) "")
      (nth 2 (palette_for t_id det) "") (nth 3 (palette_for t_id det) "")
      (nth 4 (palette_for t_id det) "").
Proof.
  intro Hne. unfold technique_color, palette_for.
  destruct ds as [|d ds]; [contradiction|]. simpl.
  destruct (set_mem String.eqb t_id det); reflexivity.
Qed.

Lemma ds_count_le my_ds ds : (ds_count my_ds ds <= List.length ds)%nat.
Proof.
  induction ds as [|d ds IH]; simpl; [lia|].
  destruct (str_in_pyset d my_ds); lia.
Qed.

Lemma coverage_formula my_ds ds :
  coverage my_ds ds
  == inject_Z (100 * Z.of_nat (ds_count my_ds ds)) / inject_Z (Z.of_nat (List.length ds)).
Proof.
  unfold coverage, Qdiv. rewrite inject_Z_mult. ring.
Qed.

Lemma coverage_bounds my_ds ds : ds <> [] -> 0 <= coverage my_ds ds <= 100.
Proof.
  intro Hne. unfold coverage.
  assert (Hlen : (0 < Z.of_nat (List.length ds))%Z)
    by (destruct ds; [contradiction | simpl; lia]).
  pose proof (ds_count_le my_ds ds) as Hle.
  assert (Hb : 0 < inject_Z (Z.of_nat (List.length ds)))
    by (rewrite <- (Zlt_Qlt 0); exact Hlen).
  split.
  - apply Qmult_le_0_compat; [|discriminate].
    apply Qle_shift_div_l; [exact Hb|].
    rewrite Qmult_0_l. rewrite <- (Zle_Qle 0). lia.
  - apply Qle_trans with (1 * 100); [|discriminate].
    apply Qmult_le_compat_r; [|discriminate].
    apply Qle_shift_div_r; [exact Hb|].
    rewrite Qmult_1_l. rewrite <- Zle_Qle. lia.
Qed.

(** ** The entry list *)

Lemma emit_tactics_ok colors t_id c tactics :
  dict_get String.eqb t_id colors = Some c ->
  emit_tactics colors t_id tactics = Some (map (mk_entry t_id c) tactics).
Proof.
  intro Hc. induction tactics as [|tac rest IH]; simpl; [reflexivity|].
  rewrite Hc, IH. reflexivity.
Qed.

Lemma admits_truthy i t : admits i t = true -> ds_truthy (data_sources t) = true.
Proof.
  unfold admits. destruct (data_sources t) as [ds|]; [|discriminate].
  intro H. apply andb_true_iff in H. apply H.
Qed.

Lemma Permutation_flat_map {A B} (f : A -> list B) (l l' : list A) :
  Permutation l l' -> Permutation (flat_map f l) (flat_map f l').
Proof.
  induction 1; simpl.
  - constructor.
  - apply Permutation_app_head. assumption.
  - rewrite !app_assoc. apply Permutation_app_tail, Permutation_app_comm.
  - eapply Permutation_trans; eassumption.
Qed.

Lemma filter_split_perm {A} (f g h : A -> bool) (l : list A) :
  (forall x, In x l -> h x = f x || g x) ->
  (forall x, In x l -> f x = true -> g x = false) ->
  Permutation (filter f l ++ filter g l) (filter h l).
Proof.
  induction l as [|x l IH]; intros Hh Hd; simpl; [constructor|].
  assert (IH' : Permutation (filter f l ++ filter g l) (filter h l))
    by (apply IH; intros; [apply Hh | apply Hd]; simpl; auto).
  rewrite (Hh x (or_introl eq_refl)).
  destruct (f x) eqn:Ef; simpl.
  - rewrite (Hd x (or_introl eq_refl) Ef). simpl. constructor. exact IH'.
  - destruct (g x); simpl.
    + apply Permutation_sym, Permutation_trans with (x :: filter f l ++ filter g l).
      * constructor. apply Permutation_sym, IH'.
      * apply Permutation_middle.
    + exact IH'.
Qed.

Section EntryList.
Variable technique_colors : list (string * string).
Variable techniques_dict : list (string * technique).
Hypothesis dict_nodup : NoDup (map fst techniques_dict).
Hypothesis colors_total : forall t_id t,
  In (t_id, t) techniques_dict -> ds_truthy (data_sources t) = true ->
  exists c, dict_get String.eqb t_id technique_colors = Some c.

Lemma scan_spec i_ds : forall items seen out,
  NoDup (map fst items) -> incl items techniques_dict ->
  exists seen',
    scan_techniques technique_colors i_ds items seen out
      = Some (seen', out ++ flat_map (block technique_colors)
                               (filter (fresh_admitted i_ds seen) items)) /\
    (forall x, In x seen' <-> In x seen \/ In x (map fst (filter (fresh_admitted i_ds seen) items))).
Proof.
  induction items as [|[t_id t] rest IH]; intros seen out Hnd Hincl; simpl.
  - exists seen. rewrite app_nil_r. split; [reflexivity | tauto].
  - inversion Hnd as [|? ? Hnin Hnd']; subst.
    assert (Hincl' : incl rest techniques_dict) by (intros y Hy; apply Hincl; right; exact Hy).
    change (admits i_ds t && negb (set_mem String.eqb t_id seen))
      with (fresh_admitted i_ds seen (t_id, t)).
    destruct (fresh_admitted i_ds seen (t_id, t)) eqn:Ea.
    + unfold fresh_admitted in Ea. simpl in Ea. apply andb_true_iff in Ea. destruct Ea as [Hadm Hfresh].
      apply negb_true_iff, (set_mem_false String.eqb String.eqb_eq) in Hfresh.
      destruct (colors_total t_id t (Hincl _ (or_introl eq_refl)) (admits_truthy _ _ Hadm))
        as [c Hc].
      rewrite (emit_tactics_ok _ _ c _ Hc).
      destruct (IH (set_add String.eqb t_id seen) (out ++ map (mk_entry t_id c) (tactic t)) Hnd' Hincl')
        as [seen' [Hscan Hseen]].
      assert (Hf : filter (fresh_admitted i_ds (set_add String.eqb t_id seen)) rest
                   = filter (fresh_admitted i_ds seen) rest).
      { apply filter_ext_in. intros [k v] Hin. unfold fresh_admitted. simpl. f_equal. f_equal.
        destruct (set_mem String.eqb k seen) eqn:E1, (set_mem String.eqb k (set_add String.eqb t_id seen)) eqn:E2;
          try reflexivity; exfalso.
        - apply (set_mem_In String.eqb String.eqb_eq) in E1.
          apply (set_mem_false String.eqb String.eqb_eq) in E2.
          apply E2, (set_add_In String.eqb String.eqb_eq). left. exact E1.
        - apply (set_mem_In String.eqb String.eqb_eq) in E2.
          apply (set_mem_false String.eqb String.eqb_eq) in E1.
          apply (set_add_In String.eqb String.eqb_eq) in E2. destruct E2 as [E2|E2]; [tauto|].
          subst. apply Hnin. apply (in_map fst) in Hin. exact Hin. }
      rewrite Hf in Hscan, Hseen. exists seen'. split.
      * rewrite Hscan. simpl. rewrite Hc, app_assoc. reflexivity.
      * intro x. rewrite Hseen, (set_add_In String.eqb String.eqb_eq). simpl. intuition (subst; auto).
    + destruct (IH seen out Hnd' Hincl') as [seen' [Hscan Hseen]].
      exists seen'. split; assumption.
Qed.

Lemma set_mem_iff_eq (a b : list string) k (P : bool) :
  (In k a <-> In k b \/ P = true) -> set_mem String.eqb k a = set_mem String.eqb k b || P.
Proof.
  intro H.
  destruct (set_mem String.eqb k a) eqn:Ea, (set_mem String.eqb k b) eqn:Eb, P; simpl;
    try reflexivity;
    repeat match goal with
           | E : set_mem _ _ _ = true |- _ => apply (set_mem_In String.eqb String.eqb_eq) in E
           | E : set_mem _ _ _ = false |- _ => apply (set_mem_false String.eqb String.eqb_eq) in E
           end; exfalso; firstorder congruence.
Qed.

Lemma ds_loop_spec : forall L seen out,
  exists X,
    ds_loop technique_colors techniques_dict L seen out = Some (out ++ X) /\
    Permutation X (flat_map (block technique_colors)
                     (filter (admitted_by L seen) techniques_dict)).
Proof.
  induction L as [|i L IH]; intros seen out; simpl.
  - exists []. rewrite app_nil_r. split; [reflexivity|].
    replace (filter (admitted_by [] seen) techniques_dict) with (@nil (string * technique));
      [constructor|].
    clear. induction techniques_dict as [|x d IHd]; simpl; [reflexivity|].
    unfold admitted_by at 1. simpl. rewrite andb_false_r. exact IHd.
  - destruct (scan_spec i techniques_dict seen out dict_nodup (incl_refl _)) as [seen1 [Hscan Hseen]].
    rewrite Hscan.
    destruct (IH seen1 (out ++ flat_map (block technique_colors)
                                 (filter (fresh_admitted i seen) techniques_dict)))
      as [X2 [Hl HP]].
    rewrite Hl, <- app_assoc. eexists. split; [reflexivity|].
    eapply Permutation_trans; [apply Permutation_app_head, HP|].
    rewrite <- flat_map_app. apply Permutation_flat_map.
    assert (Hm : forall k t, In (k, t) techniques_dict ->
                 set_mem String.eqb k seen1
                 = set_mem String.eqb k seen || fresh_admitted i seen (k, t)).
    { intros k t Hin. apply set_mem_iff_eq. rewrite Hseen.
      rewrite (key_in_filter (fresh_admitted i seen) techniques_dict k t dict_nodup Hin).
      reflexivity. }
    apply filter_split_perm.
    + intros [k t] Hin. unfold admitted_by. simpl. rewrite (Hm k t Hin).
      unfold fresh_admitted. simpl.
      destruct (admits i t), (set_mem String.eqb k seen), (existsb (fun i0 => admits i0 t) L);
        reflexivity.
    + intros [k t] Hin Hf. unfold admitted_by. simpl. rewrite (Hm k t Hin), Hf.
      rewrite orb_true_r. reflexivity.
Qed.
End EntryList.

Open Scope nat_scope.

Lemma colors_total_of tl my_ds det t_id t :
  In (t_id, t) (techniques_dict_of tl) -> ds_truthy (data_sources t) = true ->
  dict_get String.eqb t_id (technique_colors_of (techniques_dict_of tl) my_ds det)
  = Some (technique_color my_ds det t_id
            (match data_sources t with Some ds => ds | None => [] end)).
Proof.
  intros Hin Htr. rewrite techniques_colors_get.
  destruct (techniques_dict_wf tl) as [Hnd _].
  rewrite (proj2 (dict_get_In String.eqb String.eqb_eq t_id t _ Hnd) Hin).
  destruct (data_sources t) as [[|d ds]|]; simpl in *; congruence.
Qed.

Lemma colorize_spec tl my_ds det :
  exists out,
    colorize_techniques (techniques_dict_of tl) my_ds det = Some out /\
    Permutation out
      (flat_map (block (technique_colors_of (techniques_dict_of tl) my_ds det))
         (filter (admitted_by my_ds []) (techniques_dict_of tl))).
Proof.
  destruct (techniques_dict_wf tl) as [Hnd _].
  destruct (ds_loop_spec (technique_colors_of (techniques_dict_of tl) my_ds det)
              (techniques_dict_of tl) Hnd) with (L := my_ds) (seen := @nil string) (out := @nil entry)
    as [X [HX HP]].
  - intros t_id t Hin Htr. eexists. apply colors_total_of; eassumption.
  - exists X. split; [exact HX | exact HP].
Qed.

Lemma Permutation_filter_length {A} (f : A -> bool) (l l' : list A) :
  Permutation l l' -> List.length (filter f l) = List.length (filter f l').
Proof.
  induction 1; simpl.
  - reflexivity.
  - destruct (f x); simpl; congruence.
  - destruct (f x), (f y); reflexivity.
  - congruence.
Qed.

Lemma filter_map_length {A B} (f : B -> bool) (g : A -> B) (l : list A) :
  List.length (filter f (map g l)) = List.length (filter (fun a => f (g a)) l).
Proof.
  induction l as [|a l IH]; simpl; [reflexivity|].
  destruct (f (g a)); simpl; congruence.
Qed.

Lemma count_pair_blocks colors (d : list (string * technique)) (A : string * technique -> bool) k tac :
  NoDup (map fst d) ->
  count_pair k tac (flat_map (block colors) (filter A d))
  = match dict_get String.eqb k d with
    | Some t => if A (k, t) then count_pair k tac (block colors (k, t)) else 0
    | None => 0
    end.
Proof.
  unfold count_pair.
  induction d as [|[k0 t0] d IH]; intro Hnd; simpl; [reflexivity|].
  inversion Hnd as [|? ? Hnin Hnd']; subst.
  assert (Hother : List.length (filter (fun e => String.eqb (techniqueID e) k && String.eqb (entry_tactic e) tac)
                                  (block colors (k0, t0))) = 0 \/ k = k0).
  { destruct (String.eqb k k0) eqn:E; [right; apply String.eqb_eq, E|left].
    simpl. destruct (dict_get String.eqb k0 colors); [|reflexivity].
    rewrite filter_map_length. simpl.
    rewrite String.eqb_sym, E. clear. induction (tactic t0); simpl; auto. }
  destruct (String.eqb k k0) eqn:E.
  - apply String.eqb_eq in E. subst k0.
    rewrite (dict_get_none String.eqb String.eqb_eq) in IH by exact Hnin.
    destruct (A (k, t0)); simpl; rewrite ?filter_app, ?length_app, IH by exact Hnd';
      first [reflexivity | apply Nat.add_0_r].
  - destruct Hother as [Hother|Hother]; [|subst; rewrite String.eqb_refl in E; discriminate].
    cbn [dict_get]. rewrite ?E.
    destruct (A (k0, t0)); cbn [filter flat_map]; rewrite ?filter_app, ?length_app, IH by exact Hnd';
      [rewrite Hother; reflexivity | reflexivity].
Qed.

Lemma ds_count_cons_le my_ds x ds : ds_count my_ds ds <= ds_count (x :: my_ds) ds.
Proof.
  induction ds as [|d ds IH]; cbn [ds_count]; [lia|].
  assert (Hmon : str_in_pyset d my_ds = true -> str_in_pyset d (x :: my_ds) = true).
  { unfold str_in_pyset, set_mem. simpl. intro H. rewrite H. apply orb_true_r. }
  destruct (str_in_pyset d my_ds); [rewrite (Hmon eq_refl); lia|].
  destruct (str_in_pyset d (x :: my_ds)); lia.
Qed.

Lemma palette_membership k :
  k < 5 ->
  In (nth k detection_palette "") detection_palette /\
  ~ In (nth k no_detection_palette "") detection_palette.
Proof.
  intro Hk. destruct k as [|[|[|[|[|k]]]]]; try lia;
    (split; [simpl; tauto | simpl; intuition discriminate]).
Qed.

Lemma entries_of_colorize tl my_ds det out e :
  colorize_techniques (techniques_dict_of tl) my_ds det = Some out -> In e out ->
  exists t_id t c tac,
    In (t_id, t) (techniques_dict_of tl) /\ In tac (tactic t) /\ e = mk_entry t_id c tac.
Proof.
  intros Hout He.
  destruct (colorize_spec tl my_ds det) as [out' [Hout' HP]].
  rewrite Hout in Hout'. inversion Hout'; subst out'.
  apply (Permutation_in e HP), in_flat_map in He.
  destruct He as [[t_id t] [Hit He]]. apply filter_In in Hit. destruct Hit as [Hit _].
  simpl in He. destruct (dict_get String.eqb t_id _) as [c|]; [|contradiction].
  apply in_map_iff in He. destruct He as [tac [He Htac]].
  exists t_id, t, c, tac. auto.
Qed.

Example sample_colorize :
  colorize_techniques (techniques_dict_of sample_techniques) sample_my_ds ["T1059"]
  = Some [mk_entry "T1070" c50 "Defense Evasion"; mk_entry "T1059" dc50 "Execution"].
Proof. vm_compute. reflexivity. Qed.

Example normalize_defense_evasion : replace_space (lower "Defense Evasion") = "defense-evasion".
Proof. reflexivity. Qed.

(** * Claims *)

(** C1 (code_bug). A technique without data-sources gets no colour at all:
    the [else] branch with the marking colour '#dc1a33' sits under
    [if t['data_sources']:] and is never taken, so no technique is ever
    mapped to the marking colour. *)
Theorem unmapped_technique_gets_no_color :
  dict_get String.eqb "T1205"
    (technique_colors_of (techniques_dict_of sample_techniques) sample_my_ds []) = None /\
  (forall tl my_ds det k,
     dict_get String.eqb k (technique_colors_of (techniques_dict_of tl) my_ds det) <> Some marking).
Proof.
  split; [vm_compute; reflexivity|].
  intros tl my_ds det k. rewrite techniques_colors_get.
  destruct (dict_get String.eqb k (techniques_dict_of tl)) as [t|]; [|discriminate].
  destruct (data_sources t) as [[|d ds]|]; simpl; try discriminate.
  unfold technique_color. simpl.
  destruct (set_mem String.eqb k det); unfold pick;
    repeat match goal with |- context [Qle_bool ?a ?b] => destruct (Qle_bool a b) end;
    discriminate.
Qed.

(** C2. For a technique with a non-empty data-source list, the coverage is
    [100 * ds_count / total], lies in [0, 100], and the colour is the shade
    of the tier given by the ascending [<=] tests against 25, 50, 75 and 99,
    everything above 99 (100 included) taking the fifth shade. *)
Theorem colors_follow_coverage_tiers tl my_ds det t_id t ds
  (Ht : dict_get String.eqb t_id (techniques_dict_of tl) = Some t)
  (Hds : data_sources t = Some ds) (Hne : ds <> []) :
  let r := coverage my_ds ds in
  let pal := palette_for t_id det in
  (r == inject_Z (100 * Z.of_nat (ds_count my_ds ds)) / inject_Z (Z.of_nat (List.length ds)))%Q /\
  (0 <= r <= 100)%Q /\
  exists c,
    dict_get String.eqb t_id (technique_colors_of (techniques_dict_of tl) my_ds det) = Some c /\
    ((r <= 25)%Q -> c = nth 0 pal "") /\
    ((25 < r)%Q -> (r <= 50)%Q -> c = nth 1 pal "") /\
    ((50 < r)%Q -> (r <= 75)%Q -> c = nth 2 pal "") /\
    ((75 < r)%Q -> (r <= 99)%Q -> c = nth 3 pal "") /\
    ((99 < r)%Q -> c = nth 4 pal "").
Proof.
  intros r pal. split; [apply coverage_formula|].
  split; [apply coverage_bounds; exact Hne|].
  exists (technique_color my_ds det t_id ds). split.
  - rewrite techniques_colors_get, Ht, Hds. destruct ds; [contradiction | reflexivity].
  - rewrite technique_color_palette by exact Hne. apply pick_tiers.
Qed.

Lemma colors_follow_coverage_tiers_witness :
  dict_get String.eqb "T1070" (techniques_dict_of sample_techniques) = Some t1070 /\
  data_sources t1070 = Some ["File monitoring"; "Process monitoring";
                             "Process command-line parameters"; "API monitoring"] /\
  ["File monitoring"; "Process monitoring"; "Process command-line parameters"; "API monitoring"] <> [] /\
  (let r := coverage sample_my_ds
              ["File monitoring"; "Process monitoring"; "Process command-line parameters"; "API monitoring"] in
   let pal := palette_for "T1070" [] in
   (r == inject_Z (100 * Z.of_nat (ds_count sample_my_ds
              ["File monitoring"; "Process monitoring"; "Process command-line parameters"; "API monitoring"]))
         / inject_Z 4)%Q /\
   (0 <= r <= 100)%Q /\
   exists c,
     dict_get String.eqb "T1070" (technique_colors_of (techniques_dict_of sample_techniques) sample_my_ds []) = Some c /\
     ((r <= 25)%Q -> c = nth 0 pal "") /\
     ((25 < r)%Q -> (r <= 50)%Q -> c = nth 1 pal "") /\
     ((50 < r)%Q -> (r <= 75)%Q -> c = nth 2 pal "") /\
     ((75 < r)%Q -> (r <= 99)%Q -> c = nth 3 pal "") /\
     ((99 < r)%Q -> c = nth 4 pal "")).
Proof.
  refine (conj _ (conj _ (conj _ _))); [vm_compute; reflexivity | reflexivity | discriminate |].
  apply (colors_follow_coverage_tiers sample_techniques sample_my_ds [] "T1070" t1070);
    [vm_compute; reflexivity | reflexivity | discriminate].
Defined.

(** C3. The palette family is decided by membership of the id in the
    detected set alone: with the same data-sources, any two detected sets
    give colours of the same tier [k], each from the detection palette
    exactly when the id is in that detected set. *)
Theorem palette_is_detection_switch tl my_ds det1 det2 t_id t ds
  (Ht : dict_get String.eqb t_id (techniques_dict_of tl) = Some t)
  (Hds : data_sources t = Some ds) (Hne : ds <> []) :
  exists k c1 c2,
    k < 5 /\
    dict_get String.eqb t_id (technique_colors_of (techniques_dict_of tl) my_ds det1) = Some c1 /\
    dict_get String.eqb t_id (technique_colors_of (techniques_dict_of tl) my_ds det2) = Some c2 /\
    c1 = nth k (palette_for t_id det1) "" /\
    c2 = nth k (palette_for t_id det2) "" /\
    (In c1 detection_palette <-> set_mem String.eqb t_id det1 = true) /\
    (In c2 detection_palette <-> set_mem String.eqb t_id det2 = true).
Proof.
  destruct (pick_index (coverage my_ds ds) []) as [k [Hk Hpick]].
  assert (Hc : forall det, dict_get String.eqb t_id
                 (technique_colors_of (techniques_dict_of tl) my_ds det)
               = Some (nth k (palette_for t_id det) "")).
  { intro det. rewrite techniques_colors_get, Ht, Hds.
    destruct ds as [|d ds']; [contradiction|]. simpl ds_truthy. cbv iota.
    rewrite technique_color_palette by exact Hne. rewrite Hpick. reflexivity. }
  assert (Hin : forall det, In (nth k (palette_for t_id det) "") detection_palette
                            <-> set_mem String.eqb t_id det = true).
  { intro det. unfold palette_for. destruct (palette_membership k Hk) as [H1 H2].
    destruct (set_mem String.eqb t_id det); split; intro; try tauto; try discriminate. }
  exists k, (nth k (palette_for t_id det1) ""), (nth k (palette_for t_id det2) "").
  repeat split; try apply Hc; try apply Hin; try assumption; apply Hin; assumption.
Qed.

Lemma palette_is_detection_switch_witness :
  exists k c1 c2,
    k < 5 /\
    dict_get String.eqb "T1070" (technique_colors_of (techniques_dict_of sample_techniques) sample_my_ds []) = Some c1 /\
    dict_get String.eqb "T1070" (technique_colors_of (techniques_dict_of sample_techniques) sample_my_ds ["T1070"]) = Some c2 /\
    c1 = nth k (palette_for "T1070" []) "" /\
    c2 = nth k (palette_for "T1070" ["T1070"]) "" /\
    (In c1 detection_palette <-> set_mem String.eqb "T1070" [] = true) /\
    (In c2 detection_palette <-> set_mem String.eqb "T1070" ["T1070"] = true).
Proof.
  apply (palette_is_detection_switch sample_techniques sample_my_ds [] ["T1070"] "T1070" t1070
           ["File monitoring"; "Process monitoring"; "Process command-line parameters"; "API monitoring"]);
    [vm_compute; reflexivity | reflexivity | discriminate].
Defined.

(** C5. Adding a data-source to the topic's set never lowers the
    coverage of a technique. *)
Theorem coverage_monotone my_ds x ds :
  (coverage my_ds ds <= coverage (x :: my_ds) ds)%Q.
Proof.
  unfold coverage. apply Qmult_le_compat_r; [|discriminate].
  unfold Qdiv. apply Qmult_le_compat_r.
  - rewrite <- Zle_Qle. pose proof (ds_count_cons_le my_ds x ds). lia.
  - apply Qinv_le_0_compat. rewrite <- (Zle_Qle 0). lia.
Qed.

(** C9. Every technique the entry loop can admit (non-empty data-sources)
    has a colour in [technique_colors], so [_colorize_techniques] never
    raises [KeyError]. *)
Theorem colorize_lookup_never_fails tl my_ds det :
  (forall t_id t,
     dict_get String.eqb t_id (techniques_dict_of tl) = Some t ->
     ds_truthy (data_sources t) = true ->
     exists c, dict_get String.eqb t_id (technique_colors_of (techniques_dict_of tl) my_ds det) = Some c) /\
  exists out, colorize_techniques (techniques_dict_of tl) my_ds det = Some out.
Proof.
  split.
  - intros t_id t Ht Htr. eexists. apply colors_total_of; [|exact Htr].
    apply dict_get_some_In with (keqb := String.eqb); [apply String.eqb_eq | exact Ht].
  - destruct (colorize_spec tl my_ds det) as [out [Hout _]]. exists out. exact Hout.
Qed.

(** C10. Every emitted entry carries the technique id unchanged and the
    tactic lower-cased with spaces replaced by dashes. *)
Theorem entry_tactic_normalized tl my_ds det out e
  (Hout : colorize_techniques (techniques_dict_of tl) my_ds det = Some out)
  (He : In e out) :
  exists t tac,
    dict_get String.eqb (techniqueID e) (techniques_dict_of tl) = Some t /\
    technique_id t = techniqueID e /\
    In tac (tactic t) /\
    entry_tactic e = replace_space (lower tac).
Proof.
  destruct (entries_of_colorize tl my_ds det out e Hout He) as [t_id [t [c [tac [Hin [Htac ->]]]]]].
  destruct (techniques_dict_wf tl) as [Hnd Hid].
  exists t, tac. simpl. repeat split.
  - apply (dict_get_In String.eqb String.eqb_eq t_id t _ Hnd). exact Hin.
  - apply Hid, Hin.
  - exact Htac.
Qed.

Lemma entry_tactic_normalized_witness :
  exists t tac,
    dict_get String.eqb "T1070" (techniques_dict_of sample_techniques) = Some t /\
    technique_id t = "T1070" /\
    In tac (tactic t) /\
    "defense-evasion" = replace_space (lower tac).
Proof.
  exact (entry_tactic_normalized sample_techniques sample_my_ds ["T1059"]
           [mk_entry "T1070" c50 "Defense Evasion"; mk_entry "T1059" dc50 "Execution"]
           (mk_entry "T1070" c50 "Defense Evasion")
           sample_colorize (or_introl eq_refl)).
Defined.

Lemma length_filter_pos {A} (f : A -> bool) (l : list A) :
  0 < List.length (filter f l) <-> exists x, In x l /\ f x = true.
Proof.
  induction l as [|x l IH]; simpl.
  - split; [lia | intros [x [[] _]]].
  - destruct (f x) eqn:E; simpl.
    + split; [intros _; exists x; auto | lia].
    + rewrite IH. split.
      * intros [y [Hy Hf]]. exists y. auto.
      * intros [y [[Hy|Hy] Hf]]; [subst; congruence | exists y; auto].
Qed.

Lemma admitted_by_nil my_ds item :
  admitted_by my_ds [] item = existsb (fun i => admits i (snd item)) my_ds.
Proof. reflexivity. Qed.

(** C4 (counterexample). A tactic listed twice for one technique gives two
    identical (technique, tactic) entries. *)

Lemma duplicate_tactic_duplicates_entry :
  match colorize_techniques (techniques_dict_of [t1059_twice]) [Some (CStr "Process monitoring")] [] with
  | Some out => ~ NoDup (map (fun e => (techniqueID e, entry_tactic e)) out)
  | None => False
  end.
Proof.
  vm_compute. intro H. inversion H as [|? ? Hnin _]. apply Hnin. left. reflexivity.
Qed.

(** C4 (amended). A (technique, tactic) pair occurs in a topic's entry list
    as many times as the tactic (normalized) occurs in the technique's
    tactic list when one of the topic's data-sources is in the technique's
    non-empty data-source list, and never otherwise: the technique is
    emitted once however many data-sources reference it. *)
Theorem entries_per_technique_tactic tl my_ds det :
  exists out,
    colorize_techniques (techniques_dict_of tl) my_ds det = Some out /\
    (forall t_id tac,
       count_pair t_id tac out
       = match dict_get String.eqb t_id (techniques_dict_of tl) with
         | Some t => if existsb (fun i => admits i t) my_ds then count_tactic tac (tactic t) else 0
         | None => 0
         end) /\
    (forall t_id tac,
       (exists e, In e out /\ techniqueID e = t_id /\ entry_tactic e = tac) <->
       exists t,
         dict_get String.eqb t_id (techniques_dict_of tl) = Some t /\
         (exists i, In i my_ds /\ admits i t = true) /\
         (exists x, In x (tactic t) /\ replace_space (lower x) = tac)).
Proof.
  destruct (colorize_spec tl my_ds det) as [out [Hout HP]].
  destruct (techniques_dict_wf tl) as [Hnd _].
  assert (Hcount : forall t_id tac,
       count_pair t_id tac out
       = match dict_get String.eqb t_id (techniques_dict_of tl) with
         | Some t => if existsb (fun i => admits i t) my_ds then count_tactic tac (tactic t) else 0
         | None => 0
         end).
  { intros t_id tac. unfold count_pair. rewrite (Permutation_filter_length _ _ _ HP).
    fold (count_pair t_id tac (flat_map (block (technique_colors_of (techniques_dict_of tl) my_ds det))
                                  (filter (admitted_by my_ds []) (techniques_dict_of tl)))).
    rewrite count_pair_blocks by exact Hnd.
    destruct (dict_get String.eqb t_id (techniques_dict_of tl)) as [t|] eqn:Ht; [|reflexivity].
    rewrite admitted_by_nil. simpl snd.
    destruct (existsb (fun i => admits i t) my_ds) eqn:Ex; [|reflexivity].
    apply existsb_exists in Ex. destruct Ex as [i [_ Hadm]].
    apply (dict_get_some_In String.eqb String.eqb_eq) in Ht.
    simpl. rewrite (colors_total_of tl my_ds det t_id t Ht (admits_truthy _ _ Hadm)).
    unfold count_pair, count_tactic. rewrite filter_map_length. simpl.
    rewrite String.eqb_refl. reflexivity. }
  exists out. split; [exact Hout|]. split; [exact Hcount|].
  intros t_id tac.
  transitivity (0 < count_pair t_id tac out).
  { unfold count_pair. rewrite length_filter_pos. split.
    - intros [e [He [Hid Htac]]]. exists e. rewrite Hid, Htac, !String.eqb_refl. auto.
    - intros [e [He Hf]]. apply andb_true_iff in Hf. destruct Hf as [H1 H2].
      apply String.eqb_eq in H1, H2. exists e. auto. }
  rewrite Hcount.
  destruct (dict_get String.eqb t_id (techniques_dict_of tl)) as [t|] eqn:Ht.
  - destruct (existsb (fun i => admits i t) my_ds) eqn:Ex.
    + unfold count_tactic. rewrite length_filter_pos. split.
      * intros [x [Hx Heq]]. apply String.eqb_eq in Heq. exists t. split; [reflexivity|].
        split; [apply existsb_exists in Ex; exact Ex | exists x; auto].
      * intros [t' [Ht' [_ [x [Hx Heq]]]]]. inversion Ht'; subst t'.
        exists x. split; [exact Hx | apply String.eqb_eq, Heq].
    + split; [lia|]. intros [t' [Ht' [Hi _]]]. inversion Ht'; subst t'.
      apply existsb_exists in Hi. congruence.
  - split; [lia|]. intros [t' [Ht' _]]. discriminate.
Qed.

(** C6. A missing "Datasources" sheet, or a present "Datasources" and a
    missing "Detections" sheet, ends the run with [sys.exit(0)] after
    printing the message naming that sheet, before any file is written. *)
Theorem missing_sheet_exits_cleanly iter_set techniques_dict wb :
  (~ In "Datasources" (sheetnames wb) ->
   generate_layer_files iter_set techniques_dict wb empty_world
   = (Exit 0%Z, {| stdout := [no_worksheet_msg "Datasources"]; files := [] |})) /\
  (In "Datasources" (sheetnames wb) -> ~ In "Detections" (sheetnames wb) ->
   generate_layer_files iter_set techniques_dict wb empty_world
   = (Exit 0%Z, {| stdout := [no_worksheet_msg "Detections"]; files := [] |})).
Proof.
  split.
  - intro H. apply (set_mem_false String.eqb String.eqb_eq) in H.
    unfold generate_layer_files, load_my_datasources_from_file, bind.
    rewrite H. reflexivity.
  - intros H1 H2. apply (set_mem_In String.eqb String.eqb_eq) in H1.
    apply (set_mem_false String.eqb String.eqb_eq) in H2.
    unfold generate_layer_files, load_my_datasources_from_file, load_my_detected_techniques, bind.
    rewrite H1, H2. reflexivity.
Qed.

Lemma missing_sheet_exits_cleanly_witness :
  generate_layer_files (fun l => l) (techniques_dict_of sample_techniques)
    {| sheetnames := ["Sheet1"]; sheet := fun _ => ws_empty |} empty_world
  = (Exit 0%Z, {| stdout := [no_worksheet_msg "Datasources"]; files := [] |}) /\
  generate_layer_files (fun l => l) (techniques_dict_of sample_techniques)
    {| sheetnames := ["Datasources"]; sheet := fun _ => ws_empty |} empty_world
  = (Exit 0%Z, {| stdout := [no_worksheet_msg "Detections"]; files := [] |}).
Proof.
  split.
  - apply (missing_sheet_exits_cleanly (fun l => l) (techniques_dict_of sample_techniques)
             {| sheetnames := ["Sheet1"]; sheet := fun _ => ws_empty |}).
    simpl. intros [H|[]]. discriminate.
  - apply (missing_sheet_exits_cleanly (fun l => l) (techniques_dict_of sample_techniques)
             {| sheetnames := ["Datasources"]; sheet := fun _ => ws_empty |}).
    + simpl. left. reflexivity.
    + simpl. intros [H|[]]. discriminate.
Defined.

(** ** Iteration order of the data-source set *)

Section SameSet.
Variables l1 l2 : list pyval.
Hypothesis same_members : forall x, In x l1 <-> In x l2.

Lemma str_in_pyset_same d : str_in_pyset d l1 = str_in_pyset d l2.
Proof.
  unfold str_in_pyset.
  destruct (set_mem pyval_eqb (Some (CStr d)) l1) eqn:E1,
           (set_mem pyval_eqb (Some (CStr d)) l2) eqn:E2; try reflexivity;
    [apply (set_mem_In pyval_eqb pyval_eqb_eq) in E1; apply (set_mem_false pyval_eqb pyval_eqb_eq) in E2
    |apply (set_mem_In pyval_eqb pyval_eqb_eq) in E2; apply (set_mem_false pyval_eqb pyval_eqb_eq) in E1];
    exfalso; firstorder.
Qed.

Lemma ds_count_same ds : ds_count l1 ds = ds_count l2 ds.
Proof.
  induction ds as [|d ds IH]; cbn [ds_count]; [reflexivity|].
  rewrite str_in_pyset_same, IH. reflexivity.
Qed.

Lemma technique_color_same det t_id ds :
  technique_color l1 det t_id ds = technique_color l2 det t_id ds.
Proof. unfold technique_color, coverage. rewrite ds_count_same. reflexivity. Qed.

Lemma color_loop_same det items acc : color_loop l1 det items acc = color_loop l2 det items acc.
Proof.
  revert acc. induction items as [|[t_id t] rest IH]; intro acc; simpl; [reflexivity|].
  destruct (data_sources t) as [ds|]; [rewrite technique_color_same|]; apply IH.
Qed.

Lemma admitted_same (d : list (string * technique)) :
  filter (admitted_by l1 []) d = filter (admitted_by l2 []) d.
Proof.
  apply filter_ext. intros [k t]. rewrite !admitted_by_nil. simpl snd.
  destruct (existsb (fun i => admits i t) l1) eqn:E1, (existsb (fun i => admits i t) l2) eqn:E2;
    try reflexivity; exfalso;
    [apply existsb_exists in E1; destruct E1 as [i [Hi Ha]]
    |apply existsb_exists in E2; destruct E2 as [i [Hi Ha]]];
    apply same_members in Hi;
    match goal with E : existsb _ _ = false |- _ =>
      rewrite <- Bool.not_true_iff_false, existsb_exists in E; apply E; exists i; auto end.
Qed.
End SameSet.

(** C8 (counterexample). Two runs that enumerate the topic's data-source
    set in different orders (both are orders CPython can produce, the
    hash of a [str] being seeded per process) write different files. *)

Lemma set_iteration_order_changes_output :
  (forall l : list pyval, Permutation l (rev l)) /\
  files (snd (generate_layer_files (fun l => l) (techniques_dict_of [t1070_fm; t1059_pm]) wb_soc empty_world))
  <> files (snd (generate_layer_files (@rev pyval) (techniques_dict_of [t1070_fm; t1059_pm]) wb_soc empty_world)).
Proof.
  split; [apply Permutation_rev|].
  vm_compute. discriminate.
Qed.

(** C8 (amended). Two enumerations of the same data-source set give the
    same entries, possibly in another order. *)
Theorem entries_equal_up_to_order tl det l1 l2
  (Hsame : forall x, In x l1 <-> In x l2) :
  exists o1 o2,
    colorize_techniques (techniques_dict_of tl) l1 det = Some o1 /\
    colorize_techniques (techniques_dict_of tl) l2 det = Some o2 /\
    Permutation o1 o2.
Proof.
  destruct (colorize_spec tl l1 det) as [o1 [H1 P1]].
  destruct (colorize_spec tl l2 det) as [o2 [H2 P2]].
  exists o1, o2. split; [exact H1|]. split; [exact H2|].
  unfold technique_colors_of in P1, P2.
  rewrite (color_loop_same l1 l2 Hsame), (admitted_same l1 l2 Hsame) in P1.
  eapply Permutation_trans; [exact P1 | apply Permutation_sym, P2].
Qed.

Lemma entries_equal_up_to_order_witness :
  exists o1 o2,
    colorize_techniques (techniques_dict_of [t1070_fm; t1059_pm])
      [Some (CStr "File monitoring"); Some (CStr "Process monitoring")] [] = Some o1 /\
    colorize_techniques (techniques_dict_of [t1070_fm; t1059_pm])
      [Some (CStr "Process monitoring"); Some (CStr "File monitoring")] [] = Some o2 /\
    Permutation o1 o2.
Proof.
  apply entries_equal_up_to_order. simpl. intro x. tauto.
Defined.

(** ** Sheet parsing *)

Lemma in_range a b x : In x (range a b) <-> a <= x < b.
Proof. unfold range. rewrite in_seq. lia. Qed.

Lemma range_split m col :
  2 <= col <= m -> range 2 (m + 1) = range 2 col ++ col :: range (col + 1) (m + 1).
Proof.
  intro H. unfold range.
  replace (m + 1 - 2) with ((col - 2) + S (m - col)) by lia.
  rewrite seq_app. replace (2 + (col - 2)) with col by lia.
  replace (m + 1 - (col + 1)) with (m - col) by lia.
  replace (col + 1) with (S col) by lia. reflexivity.
Qed.

Lemma fold_set_add_if_In (P : nat -> bool) (g : nat -> pyval) rows s0 v :
  In v (fold_left (fun s r => if P r then set_add pyval_eqb (g r) s else s) rows s0)
  <-> In v s0 \/ exists r, In r rows /\ P r = true /\ g r = v.
Proof.
  revert s0. induction rows as [|r rows IH]; intro s0; simpl.
  - split; [tauto|]. intros [H|[r [[] _]]]. exact H.
  - rewrite IH. destruct (P r) eqn:E.
    + rewrite (set_add_In pyval_eqb pyval_eqb_eq). split.
      * intros [[H|H]|[r' [Hr' [HP Hg]]]]; [tauto | right; exists r; auto | right; exists r'; auto].
      * intros [H|[r' [[Hr'|Hr'] [HP Hg]]]]; [tauto | subst; left; right; reflexivity | right; exists r'; auto].
    + split.
      * intros [H|[r' [Hr' [HP Hg]]]]; [tauto | right; exists r'; auto].
      * intros [H|[r' [[Hr'|Hr'] [HP Hg]]]]; [tauto | subst; congruence | right; exists r'; auto].
Qed.

Lemma fold_set_add_In (l s : list string) f :
  In f (fold_left (fun s t => set_add String.eqb t s) l s) <-> In f s \/ In f l.
Proof.
  revert s. induction l as [|x l IH]; intro s; simpl; [tauto|].
  rewrite IH, (set_add_In String.eqb String.eqb_eq). intuition (subst; auto).
Qed.

Section ColumnDict.
Context {A : Type} (header : nat -> pyval) (value : nat -> A).

Lemma fold_dict_other cols d k :
  (forall c, In c cols -> header c <> k) ->
  dict_get pyval_eqb k (fold_left (fun d c => dict_set pyval_eqb (header c) (value c) d) cols d)
  = dict_get pyval_eqb k d.
Proof.
  revert d. induction cols as [|c cols IH]; intros d H; simpl; [reflexivity|].
  rewrite IH by (intros; apply H; right; assumption).
  rewrite (dict_get_set pyval_eqb pyval_eqb_eq).
  rewrite (keqb_false pyval_eqb pyval_eqb_eq); [reflexivity|].
  intro Heq. apply (H c (or_introl eq_refl)). symmetry. exact Heq.
Qed.

Lemma fold_dict_last l1 c l2 d :
  (forall c', In c' l2 -> header c' <> header c) ->
  dict_get pyval_eqb (header c)
    (fold_left (fun d c => dict_set pyval_eqb (header c) (value c) d) (l1 ++ c :: l2) d)
  = Some (value c).
Proof.
  intro H. rewrite fold_left_app. simpl. rewrite fold_dict_other by exact H.
  rewrite (dict_get_set pyval_eqb pyval_eqb_eq), (keqb_refl pyval_eqb pyval_eqb_eq).
  reflexivity.
Qed.
End ColumnDict.

Lemma option_fold_none {X S} (F : X -> S -> option S) (l : list X) :
  fold_left (fun acc x => match acc with None => None | Some s => F x s end) l None = None.
Proof. induction l; simpl; auto. Qed.

Lemma option_fold_fails {X S} (F : X -> S -> option S) (l : list X) x0 a :
  In x0 l -> (forall s, F x0 s = None) ->
  fold_left (fun acc x => match acc with None => None | Some s => F x s end) l a = None.
Proof.
  revert a. induction l as [|x l IH]; intros a Hin HF; simpl; [contradiction|].
  destruct Hin as [<-|Hin].
  - destruct a as [s|]; [rewrite HF|]; apply option_fold_none.
  - apply IH; assumption.
Qed.

Lemma column_detections_spec ws col rows s0 :
  (forall r z, In r rows -> cell_at ws r col <> Some (CNum z)) ->
  exists s,
    fold_left (fun acc row => match acc with
                              | None => None
                              | Some s => add_detections (cell_at ws row col) s
                              end) rows (Some s0) = Some s /\
    (forall f, In f s <-> In f s0 \/
       exists r v, In r rows /\ cell_at ws r col = Some (CStr v) /\ In f (split_comma v)).
Proof.
  revert s0. induction rows as [|r rows IH]; intros s0 H; simpl.
  - exists s0. split; [reflexivity|]. intro f. split; [tauto|].
    intros [Hf|[r [v [[] _]]]]. exact Hf.
  - assert (H' : forall r' z, In r' rows -> cell_at ws r' col <> Some (CNum z))
      by (intros r' z Hr'; apply H; right; exact Hr').
    destruct (cell_at ws r col) as [[v|z]|] eqn:Ec.
    + simpl. destruct (IH (fold_left (fun s t => set_add String.eqb t s) (split_comma v) s0) H')
        as [s [Hs Hmem]]. exists s. split; [exact Hs|].
      intro f. rewrite Hmem, fold_set_add_In. split.
      * intros [[Hf|Hf]|[r' [v' [Hr' [Hc Hf]]]]]; [tauto | right; exists r, v; simpl; auto
                                                 | right; exists r', v'; simpl; auto].
      * intros [Hf|[r' [v' [[<-|Hr'] [Hc Hf]]]]]; [tauto | | right; exists r', v'; auto].
        rewrite Ec in Hc. inversion Hc; subst. tauto.
    + exfalso. apply (H r z); [left; reflexivity | exact Ec].
    + simpl. destruct (IH s0 H') as [s [Hs Hmem]]. exists s. split; [exact Hs|].
      intro f. rewrite Hmem. split.
      * intros [Hf|[r' [v' [Hr' [Hc Hf]]]]]; [tauto | right; exists r', v'; simpl; auto].
      * intros [Hf|[r' [v' [[<-|Hr'] [Hc Hf]]]]]; [tauto | congruence | right; exists r', v'; auto].
Qed.

Lemma detections_fold_some ws cols d0 :
  (forall c, In c cols -> column_detections ws c <> None) ->
  fold_left
    (fun acc col => match acc with
                    | None => None
                    | Some d => match column_detections ws col with
                                | None => None
                                | Some s => Some (dict_set pyval_eqb (cell_at ws 1 col) s d)
                                end
                    end) cols (Some d0)
  = Some (fold_left (fun d c => dict_set pyval_eqb (cell_at ws 1 c)
                                  (match column_detections ws c with Some s => s | None => [] end) d)
            cols d0).
Proof.
  revert d0. induction cols as [|c cols IH]; intros d0 H; simpl; [reflexivity|].
  destruct (column_detections ws c) as [s|] eqn:E.
  - apply IH. intros c' Hc'. apply H. right. exact Hc'.
  - exfalso. apply (H c); [left; reflexivity | exact E].
Qed.

Lemma split_comma_nonempty v : split_comma v <> [].
Proof.
  destruct v as [|c v]; simpl; [discriminate|].
  destruct (Ascii.eqb c ","%char); [discriminate|].
  destruct (split_comma v); discriminate.
Qed.

(** Joining the fragments with ',' gives back the cell: nothing is
    stripped. *)
Lemma split_comma_verbatim v : String.concat "," (split_comma v) = v.
Proof.
  induction v as [|c v IH]; [reflexivity|]. simpl.
  destruct (Ascii.eqb c ","%char) eqn:E.
  - apply Ascii.eqb_eq in E. subst c.
    destruct (split_comma v) as [|p ps] eqn:Es; [destruct (split_comma_nonempty v Es)|].
    simpl. rewrite <- IH. reflexivity.
  - destruct (split_comma v) as [|p ps] eqn:Es; [destruct (split_comma_nonempty v Es)|].
    destruct ps as [|p' ps]; simpl in *; rewrite <- IH; reflexivity.
Qed.

(** C7 (counterexample). A number typed in a "Detections" cell is not
    split: [value.split(',')] raises and the run fails. *)

Lemma numeric_detection_cell_raises :
  fst (load_my_detected_techniques
         {| sheetnames := ["Datasources"; "Detections"]; sheet := fun _ => ws_detections_number |}
         empty_world)
  = Raise "AttributeError".
Proof. vm_compute. reflexivity. Qed.

(** C7 (amended). For the last column carrying a given topic name:
    on the "Datasources" sheet the topic's set holds a row label exactly
    when some row with that label has the marker value 'x'; on the
    "Detections" sheet, when every cell is empty or a string, the topic's
    set holds exactly the fragments of [split(',')] of its non-empty
    cells, and the fragments joined by ',' give the cell back; a
    non-string value anywhere in the sheet makes the parse fail. *)
Theorem sheet_parsing ws col
  (Hcol : 2 <= col <= max_column ws)
  (Hlast : forall col', col < col' <= max_column ws -> cell_at ws 1 col' <> cell_at ws 1 col) :
  (exists s,
     dict_get pyval_eqb (cell_at ws 1 col) (datasources_of_sheet ws) = Some s /\
     forall v, In v s <->
       exists row, 2 <= row <= max_row ws /\ cell_at ws row col = Some (CStr "x") /\
                   cell_at ws row 1 = v) /\
  ((forall row col' z, 2 <= row <= max_row ws -> 2 <= col' <= max_column ws ->
                       cell_at ws row col' <> Some (CNum z)) ->
   exists d s,
     detections_of_sheet ws = Some d /\
     dict_get pyval_eqb (cell_at ws 1 col) d = Some s /\
     (forall f, In f s <->
        exists row v, 2 <= row <= max_row ws /\ cell_at ws row col = Some (CStr v) /\
                      In f (split_comma v)) /\
     (forall row v, cell_at ws row col = Some (CStr v) -> String.concat "," (split_comma v) = v)) /\
  ((exists row col' z, 2 <= row <= max_row ws /\ 2 <= col' <= max_column ws /\
                       cell_at ws row col' = Some (CNum z)) ->
   detections_of_sheet ws = None).
Proof.
  assert (Hafter : forall c', In c' (range (col + 1) (max_column ws + 1)) ->
                              cell_at ws 1 c' <> cell_at ws 1 col)
    by (intros c' Hc'; apply in_range in Hc'; apply Hlast; lia).
  split; [|split].
  - exists (column_datasources ws col). split.
    + unfold datasources_of_sheet. rewrite (range_split _ col Hcol).
      apply (fold_dict_last (cell_at ws 1) (column_datasources ws)). exact Hafter.
    + intro v. unfold column_datasources. rewrite fold_set_add_if_In. split.
      * intros [[]|[r [Hr [Hx Hv]]]]. apply in_range in Hr.
        apply pyval_eqb_eq in Hx. exists r. split; [lia|auto].
      * intros [r [Hr [Hx Hv]]]. right. exists r. split; [apply in_range; lia|].
        split; [apply pyval_eqb_eq; exact Hx | exact Hv].
  - intro Hstr.
    assert (Hcolok : forall c, In c (range 2 (max_column ws + 1)) ->
              exists s, column_detections ws c = Some s /\
                (forall f, In f s <->
                   exists row v, 2 <= row <= max_row ws /\ cell_at ws row c = Some (CStr v) /\
                                 In f (split_comma v))).
    { intros c Hc. apply in_range in Hc.
      destruct (column_detections_spec ws c (range 2 (max_row ws + 1)) [])
        as [s [Hs Hmem]].
      { intros r z Hr. apply in_range in Hr. apply Hstr; lia. }
      exists s. split; [exact Hs|]. intro f. rewrite Hmem. split.
      - intros [[]|[r [v [Hr Hv]]]]. apply in_range in Hr. exists r, v. split; [lia | exact Hv].
      - intros [r [v [Hr Hv]]]. right. exists r, v. split; [apply in_range; lia | exact Hv]. }
    destruct (Hcolok col) as [s [Hs Hmem]]; [apply in_range; lia|].
    unfold detections_of_sheet. rewrite detections_fold_some.
    2: { intros c Hc. destruct (Hcolok c Hc) as [s' [Hs' _]]. rewrite Hs'. discriminate. }
    eexists. exists s. split; [reflexivity|].
    rewrite (range_split _ col Hcol).
    rewrite (fold_dict_last (cell_at ws 1)
               (fun c => match column_detections ws c with Some s => s | None => [] end))
      by exact Hafter.
    rewrite Hs. split; [reflexivity|]. split; [exact Hmem|].
    intros row v _. apply split_comma_verbatim.
  - intros [row [col' [z [Hrow [Hcol' Hz]]]]].
    unfold detections_of_sheet.
    apply (option_fold_fails _ _ col'); [apply in_range; lia|].
    intro d. unfold column_detections.
    rewrite (option_fold_fails (fun row s => add_detections (cell_at ws row col') s)
               (range 2 (max_row ws + 1)) row); [reflexivity | apply in_range; lia |].
    intro s. simpl. rewrite Hz. reflexivity.
Qed.

Lemma sheet_parsing_witness :
  (exists s,
     dict_get pyval_eqb (cell_at ws_datasources 1 2) (datasources_of_sheet ws_datasources) = Some s /\
     forall v, In v s <->
       exists row, 2 <= row <= max_row ws_datasources /\
                   cell_at ws_datasources row 2 = Some (CStr "x") /\ cell_at ws_datasources row 1 = v) /\
  ((forall row col' z, 2 <= row <= max_row ws_datasources -> 2 <= col' <= max_column ws_datasources ->
                       cell_at ws_datasources row col' <> Some (CNum z)) ->
   exists d s,
     detections_of_sheet ws_datasources = Some d /\
     dict_get pyval_eqb (cell_at ws_datasources 1 2) d = Some s /\
     (forall f, In f s <->
        exists row v, 2 <= row <= max_row ws_datasources /\
                      cell_at ws_datasources row 2 = Some (CStr v) /\ In f (split_comma v)) /\
     (forall row v, cell_at ws_datasources row 2 = Some (CStr v) ->
                    String.concat "," (split_comma v) = v)) /\
  ((exists row col' z, 2 <= row <= max_row ws_datasources /\ 2 <= col' <= max_column ws_datasources /\
                       cell_at ws_datasources row col' = Some (CNum z)) ->
   detections_of_sheet ws_datasources = None).
Proof.
  apply (sheet_parsing ws_datasources 2).
  - simpl. lia.
  - simpl. intros col' Hc. lia.
Defined.

(** * Further properties of the code *)

Lemma dict_set_keys_In {K V} (keqb : K -> K -> bool) (keqb_spec : forall a b, keqb a b = true <-> a = b)
    (k x : K) (v : V) d :
  In x (map fst (dict_set keqb k v d)) <-> In x (map fst d) \/ x = k.
Proof.
  rewrite dict_set_keys.
  destruct (set_mem keqb k (map fst d)) eqn:E.
  - apply (set_mem_In keqb keqb_spec) in E. split; [tauto|]. intros [H|H]; subst; assumption.
  - rewrite in_app_iff. simpl. intuition (subst; auto).
Qed.

Lemma techniques_dict_fold tl d :
  (forall k, dict_get String.eqb k (fold_left (fun d t => dict_set String.eqb (technique_id t) t d) tl d)
             = fold_left (fun acc t => if String.eqb (technique_id t) k then Some t else acc) tl
                 (dict_get String.eqb k d)) /\
  (forall k, In k (map fst (fold_left (fun d t => dict_set String.eqb (technique_id t) t d) tl d))
             <-> In k (map fst d) \/ In k (map technique_id tl)).
Proof.
  revert d. induction tl as [|t tl IH]; intro d; simpl.
  - split; [reflexivity | tauto].
  - destruct (IH (dict_set String.eqb (technique_id t) t d)) as [IH1 IH2]. split.
    + intro k. rewrite IH1, (dict_get_set String.eqb String.eqb_eq), String.eqb_sym. reflexivity.
    + intro k. rewrite IH2, (dict_set_keys_In String.eqb String.eqb_eq). intuition.
Qed.

Lemma fold_set_add_str (ds s : list string) x :
  In x (fold_left (fun s d => set_add String.eqb d s) ds s) <-> In x s \/ In x ds.
Proof.
  revert s. induction ds as [|d ds IH]; intro s; simpl; [tauto|].
  rewrite IH, (set_add_In String.eqb String.eqb_eq). intuition.
Qed.

Lemma fold_set_add_nodup (ds s : list string) :
  NoDup s -> NoDup (fold_left (fun s d => set_add String.eqb d s) ds s).
Proof.
  revert s. induction ds as [|d ds IH]; intros s Hs; simpl; [exact Hs|].
  apply IH. unfold set_add. destruct (set_mem String.eqb d s) eqn:E; [exact Hs|].
  apply (set_mem_false String.eqb String.eqb_eq) in E.
  apply NoDup_app; auto using NoDup_cons, NoDup_nil.
  intros y Hy [Hy'|[]]. subst. contradiction.
Qed.

Lemma all_datasources_fold (items : list (string * technique)) (s : list string) d :
  NoDup s ->
  NoDup (fold_left
    (fun s '(_, t) =>
       if ds_truthy (data_sources t)
       then fold_left (fun s d => set_add String.eqb d s)
              (match data_sources t with Some ds => ds | None => [] end) s
       else s) items s) /\
  (In d (fold_left
    (fun s '(_, t) =>
       if ds_truthy (data_sources t)
       then fold_left (fun s d => set_add String.eqb d s)
              (match data_sources t with Some ds => ds | None => [] end) s
       else s) items s)
   <-> In d s \/ exists t_id t ds, In (t_id, t) items /\ data_sources t = Some ds /\ In d ds).
Proof.
  revert s. induction items as [|[t_id t] items IH]; intros s Hs; simpl.
  - split; [exact Hs|]. split; [tauto|]. intros [H|[? [? [? [[] _]]]]]. exact H.
  - destruct (ds_truthy (data_sources t)) eqn:Et.
    + destruct (IH (fold_left (fun s d => set_add String.eqb d s)
                      (match data_sources t with Some ds => ds | None => [] end) s))
        as [IH1 IH2]; [apply fold_set_add_nodup, Hs|].
      split; [exact IH1|]. rewrite IH2, fold_set_add_str. split.
      * intros [[H|H]|[t_id' [t' [ds' [H1 [H2 H3]]]]]]; [tauto| |].
        -- right. destruct (data_sources t) as [ds|] eqn:Eds; [|contradiction].
           exists t_id, t, ds. auto.
        -- right. exists t_id', t', ds'. auto.
      * intros [H|[t_id' [t' [ds' [[H1|H1] [H2 H3]]]]]]; [tauto| |].
        -- inversion H1; subst. rewrite H2. tauto.
        -- right. exists t_id', t', ds'. auto.
    + destruct (IH s Hs) as [IH1 IH2]. split; [exact IH1|]. rewrite IH2. split.
      * intros [H|[t_id' [t' [ds' [H1 [H2 H3]]]]]]; [tauto|]. right. exists t_id', t', ds'. auto.
      * intros [H|[t_id' [t' [ds' [[H1|H1] [H2 H3]]]]]]; [tauto| |].
        -- inversion H1; subst. rewrite H2 in Et. destruct ds'; [contradiction | discriminate].
        -- right. exists t_id', t', ds'. auto.
Qed.

(** X2. Looking up an id in [self.techniques_dict] gives the last record
    of the technique list with that id; the keys are exactly the ids of
    the list, each once. *)
Theorem techniques_dict_last_record_wins tl k :
  dict_get String.eqb k (fst (get_all_mitre_info tl)) = last_with_id k tl /\
  (In k (map fst (fst (get_all_mitre_info tl))) <-> In k (map technique_id tl)) /\
  NoDup (map fst (fst (get_all_mitre_info tl))).
Proof.
  unfold get_all_mitre_info, techniques_dict_of, last_with_id. simpl fst.
  destruct (techniques_dict_fold tl []) as [H1 H2].
  split; [apply H1|]. split.
  - rewrite H2. simpl. tauto.
  - apply techniques_dict_wf.
Qed.

Lemma mitre_datasources_spec tl d :
  NoDup (snd (get_all_mitre_info tl)) /\
  (In d (snd (get_all_mitre_info tl)) <->
   exists t_id t ds,
     dict_get String.eqb t_id (fst (get_all_mitre_info tl)) = Some t /\
     data_sources t = Some ds /\ In d ds).
Proof.
  unfold get_all_mitre_info, all_datasources. simpl.
  destruct (all_datasources_fold (techniques_dict_of tl) [] d (NoDup_nil _)) as [H1 H2].
  split; [exact H1|]. rewrite H2.
  destruct (techniques_dict_wf tl) as [Hnd _].
  split.
  - intros [[]|[t_id [t [ds [Hin [Hds Hd]]]]]]. exists t_id, t, ds.
    split; [apply (dict_get_In String.eqb String.eqb_eq); assumption|]. auto.
  - intros [t_id [t [ds [Hget [Hds Hd]]]]]. right. exists t_id, t, ds.
    split; [apply (dict_get_some_In String.eqb String.eqb_eq); exact Hget|]. auto.
Qed.

(** X1. [_get_all_mitre_info] builds [self.datasources] without
    duplicates, and a name is in it exactly when it is listed in the
    [data_sources] of a technique of [self.techniques_dict]. *)
Theorem mitre_datasources_union tl d :
  NoDup (snd (get_all_mitre_info tl)) /\
  (In d (snd (get_all_mitre_info tl)) <->
   exists t_id t ds,
     dict_get String.eqb t_id (fst (get_all_mitre_info tl)) = Some t /\
     data_sources t = Some ds /\ In d ds).
Proof.
  destruct (mitre_datasources_spec tl d) as [Hnd Hin]. split; [exact Hnd|].
  split.
  - intro H. apply Hin, H.
  - intro H. apply Hin, H.
Qed.

Lemma fresh_admitted_same i (s1 s2 : list string) (d : list (string * technique)) :
  (forall x, In x s1 <-> In x s2) ->
  filter (fresh_admitted i s1) d = filter (fresh_admitted i s2) d.
Proof.
  intro H. apply filter_ext. intros [k t]. unfold fresh_admitted. simpl. f_equal. f_equal.
  destruct (set_mem String.eqb k s1) eqn:E1, (set_mem String.eqb k s2) eqn:E2; try reflexivity;
    [apply (set_mem_In String.eqb String.eqb_eq) in E1; apply (set_mem_false String.eqb String.eqb_eq) in E2
    |apply (set_mem_In String.eqb String.eqb_eq) in E2; apply (set_mem_false String.eqb String.eqb_eq) in E1];
    exfalso; firstorder.
Qed.

Lemma admitted_items_same d L : forall s1 s2,
  (forall x, In x s1 <-> In x s2) -> admitted_items d L s1 = admitted_items d L s2.
Proof.
  induction L as [|i L IH]; intros s1 s2 H; simpl; [reflexivity|].
  rewrite (fresh_admitted_same i s1 s2 d H). f_equal. apply IH.
  intro x. rewrite !in_app_iff, H. reflexivity.
Qed.

Lemma nodup_keys_filter {V} (p : string * V -> bool) (d : list (string * V)) :
  NoDup (map fst d) -> NoDup (map fst (filter p d)).
Proof.
  induction d as [|[k v] d IH]; intro Hnd; simpl; [constructor|].
  inversion Hnd as [|? ? Hnin Hnd']; subst.
  destruct (p (k, v)); simpl; [|apply IH, Hnd'].
  constructor; [|apply IH, Hnd'].
  intro Hk. apply Hnin. apply in_map_iff in Hk. destruct Hk as [[k' v'] [Hk Hin]].
  simpl in Hk. subst k'. apply filter_In in Hin. exact (in_map fst _ _ (proj1 Hin)).
Qed.

Lemma admitted_items_spec d L : NoDup (map fst d) -> forall seen,
  NoDup (map fst (admitted_items d L seen)) /\
  (forall k t, In (k, t) (admitted_items d L seen) <->
     In (k, t) d /\ ~ In k seen /\ exists i, In i L /\ admits i t = true).
Proof.
  intro Hnd. induction L as [|i L IH]; intro seen; simpl.
  - split; [constructor|]. intros k t. split; [intros []|]. intros [_ [_ [i [[] _]]]].
  - destruct (IH (seen ++ map fst (filter (fresh_admitted i seen) d))) as [IH1 IH2].
    assert (Hnew : forall k t, In (k, t) (filter (fresh_admitted i seen) d) <->
                     In (k, t) d /\ ~ In k seen /\ admits i t = true).
    { intros k t. rewrite filter_In. unfold fresh_admitted. simpl.
      rewrite andb_true_iff, negb_true_iff, (set_mem_false String.eqb String.eqb_eq). tauto. }
    split.
    + rewrite map_app. apply NoDup_app; [apply nodup_keys_filter, Hnd | exact IH1|].
      intros k Hk Hk'. apply in_map_iff in Hk'. destruct Hk' as [[k' t'] [Hk' Hin']]. simpl in Hk'. subst k'.
      apply IH2 in Hin'. destruct Hin' as [_ [Hs _]]. apply Hs, in_app_iff. right. exact Hk.
    + intros k t. rewrite in_app_iff, IH2, Hnew, in_app_iff. split.
      * intros [[H1 [H2 H3]]|[H1 [H2 [j [Hj Hadm]]]]].
        -- split; [exact H1|]. split; [exact H2|]. exists i. auto.
        -- split; [exact H1|]. split; [tauto|]. exists j. auto.
      * intros [H1 [H2 [j [[Hj|Hj] Hadm]]]].
        -- subst j. left. auto.
        -- destruct (admits i t) eqn:Ei; [left; auto|]. right. split; [exact H1|].
           split; [|exists j; auto]. intros [Hs|Hs]; [contradiction|].
           apply in_map_iff in Hs. destruct Hs as [[k' t'] [Hk' Hin']]. simpl in Hk'. subst k'.
           apply Hnew in Hin'. destruct Hin' as [Hin' [_ Ha]].
           rewrite (nodup_keys_unique d k t t' Hnd H1 Hin') in Ei. congruence.
Qed.

Section EntryOrder.
Variable technique_colors : list (string * string).
Variable techniques_dict : list (string * technique).
Hypothesis dict_nodup : NoDup (map fst techniques_dict).
Hypothesis colors_total : forall t_id t,
  In (t_id, t) techniques_dict -> ds_truthy (data_sources t) = true ->
  exists c, dict_get String.eqb t_id technique_colors = Some c.

Lemma ds_loop_exact L : forall seen out,
  ds_loop technique_colors techniques_dict L seen out
  = Some (out ++ flat_map (block technique_colors) (admitted_items techniques_dict L seen)).
Proof.
  induction L as [|i L IH]; intros seen out; simpl.
  - rewrite app_nil_r. reflexivity.
  - destruct (scan_spec technique_colors techniques_dict colors_total i techniques_dict seen out
                dict_nodup (incl_refl _)) as [seen1 [Hscan Hseen]].
    rewrite Hscan, IH, flat_map_app, app_assoc. f_equal. f_equal. f_equal.
    apply admitted_items_same. intro x. rewrite Hseen, in_app_iff. reflexivity.
Qed.
End EntryOrder.

Lemma colorize_exact tl my_ds det :
  colorize_techniques (techniques_dict_of tl) my_ds det
  = Some (flat_map (block (technique_colors_of (techniques_dict_of tl) my_ds det))
            (admitted_items (techniques_dict_of tl) my_ds [])).
Proof.
  unfold colorize_techniques. destruct (techniques_dict_wf tl) as [Hnd _].
  rewrite ds_loop_exact; [reflexivity | exact Hnd|].
  intros t_id t Hin Htr. eexists. apply colors_total_of; eassumption.
Qed.

(** X7. The entry list of [_colorize_techniques] is a concatenation of
    one block per technique: each technique one of whose data-sources is
    in the topic's set has exactly one block, holding one entry per
    tactic, in the order of its tactics, all with the technique's
    colour. *)
Theorem entries_are_technique_blocks tl my_ds det :
  exists items,
    colorize_techniques (techniques_dict_of tl) my_ds det
    = Some (flat_map (block (technique_colors_of (techniques_dict_of tl) my_ds det)) items) /\
    NoDup (map fst items) /\
    (forall t_id t, In (t_id, t) items <->
       In (t_id, t) (techniques_dict_of tl) /\ exists i, In i my_ds /\ admits i t = true) /\
    (forall t_id t, In (t_id, t) items ->
       exists c, dict_get String.eqb t_id (technique_colors_of (techniques_dict_of tl) my_ds det) = Some c /\
                 block (technique_colors_of (techniques_dict_of tl) my_ds det) (t_id, t)
                 = map (mk_entry t_id c) (tactic t)).
Proof.
  destruct (techniques_dict_wf tl) as [Hnd _].
  destruct (admitted_items_spec (techniques_dict_of tl) my_ds Hnd []) as [H1 H2].
  exists (admitted_items (techniques_dict_of tl) my_ds []).
  split; [apply colorize_exact|]. split; [exact H1|]. split.
  - intros t_id t. rewrite H2. simpl. tauto.
  - intros t_id t Hin. apply H2 in Hin. destruct Hin as [Hin [_ [i [_ Ha]]]].
    rewrite (colors_total_of tl my_ds det t_id t Hin (admits_truthy _ _ Ha)).
    eexists. split; [reflexivity|]. simpl.
    rewrite (colors_total_of tl my_ds det t_id t Hin (admits_truthy _ _ Ha)). reflexivity.
Qed.

(** X8. The detected techniques change only colours: for any two
    detection sets the entry lists carry the same ids, comments, enabled
    flags and tactics, in the same order. *)
Theorem detections_change_only_colors tl my_ds det1 det2 :
  exists o1 o2,
    colorize_techniques (techniques_dict_of tl) my_ds det1 = Some o1 /\
    colorize_techniques (techniques_dict_of tl) my_ds det2 = Some o2 /\
    map (fun e => (techniqueID e, comment e, enabled e, entry_tactic e)) o1
    = map (fun e => (techniqueID e, comment e, enabled e, entry_tactic e)) o2.
Proof.
  destruct (techniques_dict_wf tl) as [Hnd _].
  destruct (admitted_items_spec (techniques_dict_of tl) my_ds Hnd []) as [_ H2].
  do 2 eexists. split; [apply colorize_exact|]. split; [apply colorize_exact|].
  rewrite !flat_map_concat_map, !concat_map, !map_map. f_equal.
  apply map_ext_in. intros [t_id t] Hin. apply H2 in Hin. destruct Hin as [Hin [_ [i [_ Ha]]]].
  simpl. rewrite !(colors_total_of tl my_ds _ t_id t Hin (admits_truthy _ _ Ha)).
  rewrite !map_map. reflexivity.
Qed.

Lemma str_in_pyset_filter (p : pyval -> bool) d my_ds :
  p (Some (CStr d)) = true -> str_in_pyset d (filter p my_ds) = str_in_pyset d my_ds.
Proof.
  intro Hp. unfold str_in_pyset, set_mem.
  induction my_ds as [|x l IH]; [reflexivity|].
  cbn [filter existsb]. destruct (p x) eqn:Ex; cbn [existsb]; rewrite IH; [reflexivity|].
  destruct (pyval_eqb (Some (CStr d)) x) eqn:E; [|reflexivity].
  apply pyval_eqb_eq in E. subst x. congruence.
Qed.

Lemma ds_count_filter (p : pyval -> bool) my_ds ds :
  (forall d, In d ds -> p (Some (CStr d)) = true) ->
  ds_count (filter p my_ds) ds = ds_count my_ds ds.
Proof.
  induction ds as [|d ds IH]; intro H; cbn [ds_count]; [reflexivity|].
  rewrite str_in_pyset_filter by (apply H; left; reflexivity).
  rewrite IH by (intros; apply H; right; assumption). reflexivity.
Qed.

Lemma color_loop_filter (p : pyval -> bool) my_ds det items acc :
  (forall t_id t ds d, In (t_id, t) items -> data_sources t = Some ds -> In d ds ->
                       p (Some (CStr d)) = true) ->
  color_loop (filter p my_ds) det items acc = color_loop my_ds det items acc.
Proof.
  revert acc. induction items as [|[t_id t] rest IH]; intros acc H; simpl; [reflexivity|].
  assert (H' : forall t_id t ds d, In (t_id, t) rest -> data_sources t = Some ds -> In d ds ->
                                   p (Some (CStr d)) = true)
    by (intros; eapply H; [right|..]; eassumption).
  destruct (data_sources t) as [ds|] eqn:Eds; [|apply IH, H'].
  unfold technique_color, coverage.
  rewrite ds_count_filter by (intros d Hd; eapply H; [left; reflexivity | exact Eds | exact Hd]).
  apply IH, H'.
Qed.

Lemma scan_nothing colors i items seen out :
  (forall item, In item items -> admits i (snd item) = false) ->
  scan_techniques colors i items seen out = Some (seen, out).
Proof.
  revert seen out. induction items as [|[t_id t] rest IH]; intros seen out H; simpl; [reflexivity|].
  rewrite (H (t_id, t) (or_introl eq_refl) : admits i t = false). simpl. apply IH.
  intros; apply H; right; assumption.
Qed.

Lemma ds_loop_filter (p : pyval -> bool) colors d L :
  (forall i item, In item d -> admits i (snd item) = true -> p i = true) ->
  forall seen out, ds_loop colors d (filter p L) seen out = ds_loop colors d L seen out.
Proof.
  intro H. induction L as [|i L IH]; intros seen out; simpl; [reflexivity|].
  destruct (p i) eqn:Ep; simpl.
  - destruct (scan_techniques colors i d seen out) as [[seen' out']|]; [apply IH | reflexivity].
  - rewrite scan_nothing; [apply IH|].
    intros item Hin. destruct (admits i (snd item)) eqn:Ea; [|reflexivity].
    rewrite (H i item Hin Ea) in Ep. discriminate.
Qed.

(** X9. Values of the topic's data-source set that are not data-sources
    of the taxonomy (misspelt names, empty or numeric label cells) have no
    effect: dropping them leaves the entry list unchanged. *)
Theorem unknown_datasources_are_ignored tl my_ds det :
  colorize_techniques (fst (get_all_mitre_info tl)) my_ds det
  = colorize_techniques (fst (get_all_mitre_info tl))
      (filter (in_taxonomy (snd (get_all_mitre_info tl))) my_ds) det.
Proof.
  assert (Hds : forall t_id t ds d, In (t_id, t) (fst (get_all_mitre_info tl)) ->
                data_sources t = Some ds -> In d ds ->
                in_taxonomy (snd (get_all_mitre_info tl)) (Some (CStr d)) = true).
  { intros t_id t ds d Hin Hds Hd. simpl. apply (set_mem_In String.eqb String.eqb_eq).
    apply mitre_datasources_spec. exists t_id, t, ds. split; [|auto].
    destruct (techniques_dict_wf tl) as [Hnd _].
    apply (dict_get_In String.eqb String.eqb_eq); assumption. }
  unfold colorize_techniques, technique_colors_of.
  rewrite color_loop_filter by exact Hds.
  rewrite ds_loop_filter; [reflexivity|].
  intros i [t_id t] Hin Ha. simpl in Ha. unfold admits in Ha.
  destruct (data_sources t) as [ds|] eqn:Eds; [|discriminate].
  apply andb_true_iff in Ha. destruct Ha as [_ Ha].
  apply pyval_in_strs_In in Ha. destruct Ha as [s [-> Hs]].
  eapply Hds; eassumption.
Qed.

Lemma ds_count_full my_ds ds :
  ds_count my_ds ds = List.length ds <-> forall d, In d ds -> In (Some (CStr d)) my_ds.
Proof.
  induction ds as [|d ds IH]; cbn [ds_count List.length]; [split; [intros _ d []|reflexivity]|].
  pose proof (ds_count_le my_ds ds).
  unfold str_in_pyset. destruct (set_mem pyval_eqb (Some (CStr d)) my_ds) eqn:E.
  - apply (set_mem_In pyval_eqb pyval_eqb_eq) in E. split.
    + intros Hc d' [Hd'|Hd']; [subst; exact E|]. apply IH; [lia | exact Hd'].
    + intro H'. rewrite (proj2 IH) by (intros; apply H'; right; assumption). reflexivity.
  - apply (set_mem_false pyval_eqb pyval_eqb_eq) in E. split; [lia|].
    intro H'. exfalso. apply E, H'. left. reflexivity.
Qed.

Lemma coverage_le_99 my_ds ds :
  ds <> [] ->
  Qle_bool (coverage my_ds ds) 99
  = Z.leb (100 * Z.of_nat (ds_count my_ds ds)) (99 * Z.of_nat (List.length ds)).
Proof.
  intro Hne. destruct ds as [|d ds]; [contradiction|].
  unfold coverage, Qle_bool, Qdiv, Qmult, Qinv, inject_Z. cbn [List.length].
  rewrite Nat2Z.inj_succ. cbn [Qnum Qden].
  replace (Z.succ (Z.of_nat (List.length ds))) with (Z.pos (Pos.of_succ_nat (List.length ds)))
    by (rewrite Zpos_P_of_succ_nat; reflexivity).
  cbn [Qnum Qden]. f_equal; lia.
Qed.

Lemma pick_top (r : Q) pal :
  pal = detection_palette \/ pal = no_detection_palette ->
  (pick r (nth 0 pal "") (nth 1 pal "") (nth 2 pal "") (nth 3 pal "") (nth 4 pal "") = nth 4 pal ""
   <-> Qle_bool r 99 = false).
Proof.
  intro Hpal. unfold pick.
  assert (Hup : forall a, Qle_bool r a = true -> (a <= 99)%Q -> Qle_bool r 99 = true).
  { intros a H Ha. apply Qle_bool_iff in H. apply Qle_bool_iff. eapply Qle_trans; eassumption. }
  destruct (Qle_bool r 25) eqn:E25;
    [rewrite (Hup 25%Q E25) by discriminate; destruct Hpal; subst; split; discriminate|].
  destruct (Qle_bool r 50) eqn:E50;
    [rewrite (Hup 50%Q E50) by discriminate; destruct Hpal; subst; split; discriminate|].
  destruct (Qle_bool r 75) eqn:E75;
    [rewrite (Hup 75%Q E75) by discriminate; destruct Hpal; subst; split; discriminate|].
  destruct (Qle_bool r 99%Q); [destruct Hpal; subst; split; discriminate | tauto].
Qed.

(** X10. For a technique listing at most 100 data-sources, the top shade
    ([c100] or [dc100]) is picked exactly when every data-source it lists
    is in the topic's set. *)
Theorem top_color_iff_all_datasources tl my_ds det t_id t ds
  (Ht : dict_get String.eqb t_id (techniques_dict_of tl) = Some t)
  (Hds : data_sources t = Some ds) (Hne : ds <> []) (H100 : List.length ds <= 100) :
  exists c,
    dict_get String.eqb t_id (technique_colors_of (techniques_dict_of tl) my_ds det) = Some c /\
    (c = nth 4 (palette_for t_id det) "" <-> forall d, In d ds -> In (Some (CStr d)) my_ds).
Proof.
  exists (technique_color my_ds det t_id ds). split.
  - rewrite techniques_colors_get, Ht, Hds. destruct ds; [contradiction | reflexivity].
  - rewrite technique_color_palette by exact Hne.
    rewrite pick_top by (unfold palette_for; destruct (set_mem String.eqb t_id det); tauto).
    rewrite coverage_le_99 by exact Hne. rewrite <- ds_count_full.
    pose proof (ds_count_le my_ds ds).
    assert (0 < List.length ds) by (destruct ds; [contradiction | simpl; lia]).
    rewrite Z.leb_gt. lia.
Qed.

Lemma top_color_iff_all_datasources_witness :
  dict_get String.eqb "T1059" (techniques_dict_of sample_techniques) = Some t1059 /\
  data_sources t1059 = Some ["Process monitoring"; "Process command-line parameters"] /\
  ["Process monitoring"; "Process command-line parameters"] <> [] /\
  List.length ["Process monitoring"; "Process command-line parameters"] <= 100 /\
  exists c,
    dict_get String.eqb "T1059" (technique_colors_of (techniques_dict_of sample_techniques) sample_my_ds []) = Some c /\
    (c = nth 4 (palette_for "T1059" []) "" <->
     forall d, In d ["Process monitoring"; "Process command-line parameters"] -> In (Some (CStr d)) sample_my_ds).
Proof.
  refine (conj _ (conj _ (conj _ (conj _ _)))); [vm_compute; reflexivity | reflexivity | discriminate | simpl; lia |].
  apply (top_color_iff_all_datasources sample_techniques sample_my_ds [] "T1059" t1059);
    [vm_compute; reflexivity | reflexivity | discriminate | simpl; lia].
Defined.






















